(** * app.py: the Streamlit front-end of the text summarizer / paraphraser

    A shallow embedding of [src/app.py].  Streamlit executes the script from
    top to bottom on every user interaction; one such execution is modelled
    as a computation in a state-and-exception monad.  The state holds what
    survives between executions ([st.session_state], the [st.cache_resource]
    entry, the disk) together with what one execution produces (the elements
    rendered on the page and the calls that leave the process). *)

From Stdlib Require Import String Ascii Bool Arith Lia.
From stdpp Require Import base option list strings gmap fin_maps.

Local Open Scope string_scope.
Local Open Scope list_scope.
Local Open Scope bool_scope.

(** ** Python values used by the script *)

(** Truthiness of a [str]: only the empty string is falsy. *)
Definition truthy (s : string) : bool :=
  match s with
  | EmptyString => false
  | String _ _ => true
  end.

(** Truthiness of [os.getenv(...)], which yields [None] or a [str]. *)
Definition truthy_env (v : option string) : bool :=
  match v with
  | None => false
  | Some s => truthy s
  end.

(** [str.lower] on the ASCII range (the option labels it is applied to are
    ASCII; bytes outside ['A'..'Z'] are left alone). *)
Definition lower_char (c : ascii) : ascii :=
  let n := nat_of_ascii c in
  if ((65 <=? n)%nat && (n <=? 90)%nat)%bool then ascii_of_nat (n + 32) else c.

Fixpoint lower (s : string) : string :=
  match s with
  | EmptyString => EmptyString
  | String c rest => String (lower_char c) (lower rest)
  end.

(** ** Exceptions

    [st.stop()] and [st.rerun()] unwind the script with control exceptions
    that [except Exception] does not catch; everything else the script can
    meet is an [Exception] carrying its message. *)
Inductive exn : Type :=
  | Exception (msg : string)
  | StopException
  | RerunException.

Inductive res (A : Type) : Type :=
  | Ret (a : A)
  | Raise (e : exn).
Arguments Ret {A} a.
Arguments Raise {A} e.

(** What a call that leaves the script answers: a value, or an exception
    with its message. *)
Inductive reply (A : Type) : Type :=
  | Returns (a : A)
  | Throws (msg : string).
Arguments Returns {A} a.
Arguments Throws {A} msg.

(** ** The page *)

Inductive Element : Type :=
  | st_error (body : string)
  | st_success (body : string)
  | st_markdown (body : string)
  | st_header (body : string)
  | st_subheader (body : string)
  | st_caption (body : string)
  | st_spinner (text : string)
  | st_text_area (label value : string).

(** The three long literal blocks of the script (lines 28-91, 145-169 and
    234-242) are page decoration; they are kept as named constants. *)
Definition CUSTOM_CSS : string := "<style>...</style>".
Definition ABOUT_BOX : string := "<div class='about-box'>...</div>".
Definition FOOTER : string := "<hr .../><div ...>...</div>".

(** ** The outside world *)

(** Calls that leave the process, in the order they are made. *)
Inductive Effect : Type :=
  | new_SummarizationPipeline (token : string)
  | call_summarize (text method length : string)
  | call_paraphrase (text : string)
  | call_open (path : string)
  | call_write (path content : string).

(** Everything the script does not control: the environment variable, the
    remote pipeline, the home directory and the file system's answers. *)
Record World : Type := {
  HF_API_KEY : option string;
  SummarizationPipeline : string -> reply unit;
  summarize : string -> string -> string -> reply string;
  paraphrase : string -> reply string;
  Path_home : reply string;
  open_w : string -> reply unit;
  write : string -> string -> reply unit
}.

(** ** What the browser sends with one execution *)

Inductive Task : Type := Summarization | Paraphrasing.
Inductive Style : Type := Abstractive | Extractive.
Inductive Length : Type := Short | Medium | Long.

(** The option strings shown by the widgets (lines 132-135). *)
Definition task_option (t : Task) : string :=
  match t with
  | Summarization => "Summarization"
  | Paraphrasing => "Paraphrasing"
  end.

Definition style_option (m : Style) : string :=
  match m with
  | Abstractive => "Abstractive"
  | Extractive => "Extractive"
  end.

Definition length_option (l : Length) : string :=
  match l with
  | Short => "Short"
  | Medium => "Medium"
  | Long => "Long"
  end.

(** The three buttons of lines 185-188.  A Streamlit button returns [True]
    only in the execution its own click triggered, so an execution sees at
    most one of them pressed. *)
Inductive Button : Type := Run | Clear | Save.

(** [typed = None] is a text area the user has not touched: it then returns
    its [value=] argument. *)
Record Frontend : Type := {
  task_choice : Task;
  style_choice : Style;
  length_choice : Length;
  typed : option string;
  clicked : option Button
}.

Definition run_btn (ui : Frontend) : bool :=
  match clicked ui with Some Run => true | _ => false end.

Definition clear_btn (ui : Frontend) : bool :=
  match clicked ui with Some Clear => true | _ => false end.

Definition save_btn (ui : Frontend) : bool :=
  match clicked ui with Some Save => true | _ => false end.

(** ** State *)

Record State : Type := {
  session_state : gmap string string;
  pipeline_cached : bool;
  disk : gmap string string;
  page : list Element;
  trace : list Effect
}.

Definition with_session (f : gmap string string -> gmap string string)
    (s : State) : State :=
  {| session_state := f (session_state s);
     pipeline_cached := pipeline_cached s;
     disk := disk s;
     page := page s;
     trace := trace s |}.

Definition with_cached (b : bool) (s : State) : State :=
  {| session_state := session_state s;
     pipeline_cached := b;
     disk := disk s;
     page := page s;
     trace := trace s |}.

Definition with_disk (f : gmap string string -> gmap string string)
    (s : State) : State :=
  {| session_state := session_state s;
     pipeline_cached := pipeline_cached s;
     disk := f (disk s);
     page := page s;
     trace := trace s |}.

Definition with_page (e : Element) (s : State) : State :=
  {| session_state := session_state s;
     pipeline_cached := pipeline_cached s;
     disk := disk s;
     page := page s ++ [e];
     trace := trace s |}.

Definition with_trace (e : Effect) (s : State) : State :=
  {| session_state := session_state s;
     pipeline_cached := pipeline_cached s;
     disk := disk s;
     page := page s;
     trace := trace s ++ [e] |}.

(** ** The monad *)

Definition M (A : Type) : Type := State -> res A * State.

Definition ret {A} (a : A) : M A := fun s => (Ret a, s).

Definition raise {A} (e : exn) : M A := fun s => (Raise e, s).

Definition bind {A B} (m : M A) (k : A -> M B) : M B :=
  fun s =>
    match m s with
    | (Ret a, s') => k a s'
    | (Raise e, s') => (Raise e, s')
    end.

Notation "x <- m ;; k" := (bind m (fun x => k))
  (at level 100, m at next level, right associativity).
Notation "m ;; k" := (bind m (fun _ => k))
  (at level 100, right associativity).

(** [try: body except Exception as e: handler(e)].  The handler runs in the
    state the body had reached: Python rolls nothing back. *)
Definition try_except {A} (body : M A) (handler : string -> M A) : M A :=
  fun s =>
    match body s with
    | (Raise (Exception msg), s') => handler msg s'
    | r => r
    end.

Definition when (b : bool) (m : M unit) : M unit :=
  if b then m else ret tt.

Fixpoint for_ {A} (xs : list A) (body : A -> M unit) : M unit :=
  match xs with
  | [] => ret tt
  | x :: rest => body x ;; for_ rest body
  end.

(** ** Primitives *)

Definition show (e : Element) : M unit := fun s => (Ret tt, with_page e s).

Definition st_stop {A} : M A := raise StopException.
Definition st_rerun {A} : M A := raise RerunException.

(** [st.session_state.key] and [st.session_state[key]]: reading a key that
    was never set raises. *)
Definition getattr (key : string) : M string :=
  fun s =>
    match session_state s !! key with
    | Some v => (Ret v, s)
    | None => (Raise (Exception ("st.session_state has no attribute " +:+ key)), s)
    end.

Definition setattr (key value : string) : M unit :=
  fun s => (Ret tt, with_session (insert key value) s).

Definition contains (key : string) : M bool :=
  fun s => (Ret (bool_decide (is_Some (session_state s !! key))), s).

Definition keys : M (list string) :=
  fun s => (Ret (elements (dom (session_state s))), s).

(** A call that leaves the process is recorded, then answers. *)
Definition external {A} (e : Effect) (r : reply A) : M A :=
  fun s =>
    match r with
    | Returns a => (Ret a, with_trace e s)
    | Throws msg => (Raise (Exception msg), with_trace e s)
    end.

(** An answer of the platform that is no call of interest (the home
    directory lookup). *)
Definition answer {A} (r : reply A) : M A :=
  fun s =>
    match r with
    | Returns a => (Ret a, s)
    | Throws msg => (Raise (Exception msg), s)
    end.

(** ** Paths

    [pathlib]'s [/] and [str] in the POSIX flavour, on the string form of
    paths (the flavour with drives and backslashes is not modelled).  Joining
    is [posixpath.join] followed by the parsing every path goes through. *)

Definition starts_with_slash (s : string) : bool :=
  match s with
  | String c _ => Ascii.eqb c "/"
  | EmptyString => false
  end.

Fixpoint ends_with_slash (s : string) : bool :=
  match s with
  | EmptyString => false
  | String c EmptyString => Ascii.eqb c "/"
  | String _ rest => ends_with_slash rest
  end.

Definition str_tail (s : string) : string :=
  match s with
  | String _ rest => rest
  | EmptyString => EmptyString
  end.

(** [posixpath.join(a, b)]: an absolute [b] replaces [a]. *)
Definition posixpath_join (a b : string) : string :=
  if starts_with_slash b then b
  else if negb (truthy a) || ends_with_slash a then a +:+ b
  else a +:+ "/" +:+ b.

(** The root of a path: ["//"] for exactly two leading slashes, ["/"] for
    any other number of them, nothing for a relative path. *)
Definition path_root (p : string) : string :=
  if negb (starts_with_slash p) then ""
  else if negb (starts_with_slash (str_tail p)) ||
          starts_with_slash (str_tail (str_tail p))
       then "/"
       else "//".

(** [s.split("/")], with [current] the piece being read. *)
Fixpoint split_slash (s current : string) : list string :=
  match s with
  | EmptyString => [current]
  | String c rest =>
      if Ascii.eqb c "/" then current :: split_slash rest EmptyString
      else split_slash rest (current +:+ String c EmptyString)
  end.

(** The parts a path keeps: empty pieces and ["."] are dropped. *)
Definition path_parts (p : string) : list string :=
  List.filter (fun x => negb (String.eqb x "") && negb (String.eqb x "."))
    (split_slash p EmptyString).

(** [str(PurePosixPath(p))]: the empty path reads ["."]. *)
Definition str_path (p : string) : string :=
  let s := path_root p +:+ String.concat "/" (path_parts p) in
  if truthy s then s else ".".

(** [str(Path(dir) / name)]. *)
Definition joinpath (dir name : string) : string :=
  str_path (posixpath_join dir name).

(** ** [save_file] (lines 94-103) *)

(** [Path.home() / "Downloads" / filename]. *)
Definition download_path (home filename : string) : string :=
  joinpath (joinpath home "Downloads") filename.

(** [open(path, "w", encoding="utf-8")]: when it succeeds the file exists and
    is empty. *)
Definition open_for_writing (w : World) (path : string) : M unit :=
  external (call_open path) (open_w w path) ;;
  fun s => (Ret tt, with_disk (insert path "") s).

(** [f.write(content)] followed by the close at the end of the [with]. *)
Definition write_and_close (w : World) (path content : string) : M unit :=
  external (call_write path content) (write w path content) ;;
  fun s => (Ret tt, with_disk (insert path content) s).

Definition save_file (w : World) (content filename : string) : M (option string) :=
  try_except
    (home <- answer (Path_home w) ;;
     let path := download_path home filename in
     open_for_writing w path ;;
     write_and_close w path content ;;
     ret (Some path))
    (fun _ => ret None).

(** ** The script, section by section *)

(** Lines 105-108. *)
Definition init_session : M unit :=
  for_ ["text_input"; "text_output"; "mode"] (fun key =>
    present <- contains key ;;
    when (negb present) (setattr key "")).

(** Line 18. *)
Definition HF_TOKEN (w : World) : option string := HF_API_KEY w.

(** Lines 110-116. *)
Definition api_key_check (w : World) : M unit :=
  when (negb (truthy_env (HF_TOKEN w)))
    (show (st_error "⚠️ Missing Hugging Face API Key. Add it in `src/.env`.") ;;
     show (st_markdown
       "Get one here: [Hugging Face Tokens](https://huggingface.co/settings/tokens)") ;;
     st_stop).

(** Lines 118-121: [st.cache_resource] constructs the pipeline once and
    keeps it; a constructor that raises caches nothing. *)
Definition get_pipeline (w : World) : M unit :=
  fun s =>
    if pipeline_cached s then (Ret tt, s)
    else
      let token := default "" (HF_TOKEN w) in
      (external (new_SummarizationPipeline token) (SummarizationPipeline w token) ;;
       fun s' => (Ret tt, with_cached true s')) s.

(** Lines 123-127. *)
Definition load_pipeline (w : World) : M unit :=
  try_except (get_pipeline w)
    (fun e => show (st_error ("Failed to initialize pipeline: " +:+ e)) ;; st_stop).

(** Lines 129-169.  Returns [(task, style, length)]. *)
Definition sidebar (ui : Frontend) : M (string * option string * option string) :=
  show (st_header "Settings") ;;
  let task := task_option (task_choice ui) in
  let '(style, length) :=
    if String.eqb task "Summarization"
    then (Some (style_option (style_choice ui)),
          Some (length_option (length_choice ui)))
    else (None, None) in
  show (st_markdown "---") ;;
  show (st_success "Hugging Face API Connected") ;;
  show (st_caption "Using Inference API — no local model download required") ;;
  show (st_header "About") ;;
  show (st_markdown ABOUT_BOX) ;;
  ret (task, style, length).

(** Lines 171-173. *)
Definition main_header : M unit :=
  show (st_markdown "## 📝 AI Text Summarizer and Paraphraser") ;;
  show (st_markdown "Powered by Hugging Face Inference (no local model download required)").

(** Lines 175-183.  Returns [input_text]. *)
Definition input_section (ui : Frontend) : M string :=
  show (st_subheader "🖊️ Input Text") ;;
  value <- getattr "text_input" ;;
  let input_text := default value (typed ui) in
  setattr "text_input" input_text ;;
  ret input_text.

(** Lines 190-193. *)
Definition clear_handler (ui : Frontend) : M unit :=
  when (clear_btn ui)
    (ks <- keys ;;
     for_ ks (fun k => setattr k "") ;;
     st_rerun).

(** [x.lower()] where [x] may be [None]. *)
Definition str_lower (x : option string) : M string :=
  match x with
  | Some s => ret (lower s)
  | None => raise (Exception "'NoneType' object has no attribute 'lower'")
  end.

(** Lines 201-210: the two branches of the [try] body. *)
Definition inference (w : World) (task : string) (style length : option string)
    (input_text : string) : M string :=
  if String.eqb task "Summarization" then
    method <- str_lower style ;;
    len <- str_lower length ;;
    result <- external (call_summarize input_text method len)
                (summarize w input_text method len) ;;
    setattr "mode" "summary" ;;
    ret result
  else
    result <- external (call_paraphrase input_text) (paraphrase w input_text) ;;
    setattr "mode" "paraphrase" ;;
    ret result.

(** Lines 195-222. *)
Definition output_section (w : World) (ui : Frontend) (task : string)
    (style length : option string) (input_text : string) : M unit :=
  show (st_subheader "📄 Output") ;;
  if run_btn ui && truthy input_text then
    show (st_spinner "Processing with AI...") ;;
    try_except
      (result <- inference w task style length input_text ;;
       setattr "text_output" result ;;
       show (st_success "✅ Completed successfully.") ;;
       show (st_text_area "Result" result))
      (fun e => show (st_error ("⚠️ Error: " +:+ e)))
  else
    previous <- getattr "text_output" ;;
    if truthy previous then
      show (st_text_area "Previous Output" previous)
    else
      show (st_markdown
        "<div class='output-box'><em>Enter text above and click Run to start...</em></div>").

(** Line 226. *)
Definition download_name (mode : string) : string :=
  if String.eqb mode "summary" then "AI_output.txt" else "AI_paraphrase.txt".

(** Lines 224-231. *)
Definition save_handler (w : World) (ui : Frontend) : M unit :=
  if save_btn ui then
    text_output <- getattr "text_output" ;;
    when (truthy text_output)
      (mode <- getattr "mode" ;;
       let filename := download_name mode in
       content <- getattr "text_output" ;;
       saved_path <- save_file w content filename ;;
       match saved_path with
       | Some p =>
           if truthy p then show (st_success ("💾 File saved to: " +:+ p))
           else show (st_error "⚠️ Could not save file")
       | None => show (st_error "⚠️ Could not save file")
       end)
  else ret tt.

(** The whole script.  [st.set_page_config] (lines 21-25) sets the browser
    title and layout and renders nothing; the input widgets are represented
    by what they return, in [Frontend]. *)
Definition script (w : World) (ui : Frontend) : M unit :=
  show (st_markdown CUSTOM_CSS) ;;
  init_session ;;
  api_key_check w ;;
  load_pipeline w ;;
  choice <- sidebar ui ;;
  let '(task, style, length) := choice in
  main_header ;;
  input_text <- input_section ui ;;
  clear_handler ui ;;
  output_section w ui task style length input_text ;;
  save_handler w ui ;;
  show (st_markdown FOOTER).

(** One execution: what persists comes in, the page and the trace start
    empty. *)
Definition execution (session : gmap string string) (cached : bool)
    (files : gmap string string) : State :=
  {| session_state := session; pipeline_cached := cached; disk := files;
     page := []; trace := [] |}.

Definition app (w : World) (ui : Frontend) (s : State) : res unit * State :=
  script w ui (execution (session_state s) (pipeline_cached s) (disk s)).

(** ** Reading the session and the trace *)

Definition field (key : string) (session : gmap string string) : string :=
  default "" (session !! key).

Definition input_text (s : State) : string := field "text_input" (session_state s).
Definition output_text (s : State) : string := field "text_output" (session_state s).
Definition mode (s : State) : string := field "mode" (session_state s).

Definition is_inference (e : Effect) : bool :=
  match e with
  | call_summarize _ _ _ | call_paraphrase _ => true
  | _ => false
  end.

Definition is_file_access (e : Effect) : bool :=
  match e with
  | call_open _ | call_write _ _ => true
  | _ => false
  end.

Definition inference_calls (s : State) : list Effect := filter is_inference (trace s).
Definition file_accesses (s : State) : list Effect := filter is_file_access (trace s).

(** ** Auxiliary definitions for the statements *)

(** The session once lines 105-108 have run: a missing key holds [""]. *)
Definition set_default (key : string) (session : gmap string string) :
    gmap string string :=
  if bool_decide (is_Some (session !! key)) then session else <[key:=""]> session.

Definition defaults (session : gmap string string) : gmap string string :=
  set_default "mode" (set_default "text_output" (set_default "text_input" session)).

(** The text the text area returns, given the session before the execution. *)
Definition entered (ui : Frontend) (session : gmap string string) : string :=
  default (field "text_input" session) (typed ui).

(** The session once line 183 has run. *)
Definition synced (ui : Frontend) (session : gmap string string) :
    gmap string string :=
  <["text_input" := entered ui session]> (defaults session).

(** The session once the loop of lines 191-192 has run. *)
Definition blank (session : gmap string string) : gmap string string :=
  foldl (fun m k => <[k:=""]> m) session (elements (dom session)).

Definition token (w : World) : string := default "" (HF_TOKEN w).

(** The script gets past lines 110-127: the credential is there, and the
    pipeline is cached or its constructor returns.  Only then are the text
    area and the three buttons rendered, so every click happens in an
    application that starts. *)
Definition starts (w : World) (cached : bool) : bool :=
  truthy_env (HF_TOKEN w) &&
  (cached || match SummarizationPipeline w (token w) with
             | Returns _ => true
             | Throws _ => false
             end).

(** What the sidebar returns. *)
Definition selection (ui : Frontend) : string * option string * option string :=
  match task_choice ui with
  | Summarization =>
      ("Summarization", Some (style_option (style_choice ui)),
       Some (length_option (length_choice ui)))
  | Paraphrasing => ("Paraphrasing", None, None)
  end.

(** The request's [method] and [length] as the data model of the
    specification names them. *)
Definition method_name (m : Style) : string :=
  match m with
  | Abstractive => "abstractive"
  | Extractive => "extractive"
  end.

Definition length_name (l : Length) : string :=
  match l with
  | Short => "short"
  | Medium => "medium"
  | Long => "long"
  end.

(** The inference call a Run click makes for [text], and its answer. *)
Definition request (ui : Frontend) (text : string) : Effect :=
  match task_choice ui with
  | Summarization =>
      call_summarize text (lower (style_option (style_choice ui)))
        (lower (length_option (length_choice ui)))
  | Paraphrasing => call_paraphrase text
  end.

Definition response (w : World) (ui : Frontend) (text : string) : reply string :=
  match task_choice ui with
  | Summarization =>
      summarize w text (lower (style_option (style_choice ui)))
        (lower (length_option (length_choice ui)))
  | Paraphrasing => paraphrase w text
  end.

Definition mode_tag (ui : Frontend) : string :=
  match task_choice ui with
  | Summarization => "summary"
  | Paraphrasing => "paraphrase"
  end.

(** [open] and [write] both succeed. *)
Definition writable (w : World) (path content : string) : bool :=
  match open_w w path, write w path content with
  | Returns _, Returns _ => true
  | _, _ => false
  end.

(** Everything rendered above the output section. *)
Definition page_above_output : list Element :=
  [st_markdown CUSTOM_CSS; st_header "Settings"; st_markdown "---";
   st_success "Hugging Face API Connected";
   st_caption "Using Inference API — no local model download required";
   st_header "About"; st_markdown ABOUT_BOX;
   st_markdown "## 📝 AI Text Summarizer and Paraphraser";
   st_markdown "Powered by Hugging Face Inference (no local model download required)";
   st_subheader "🖊️ Input Text"].

Definition placeholder : Element :=
  st_markdown
    "<div class='output-box'><em>Enter text above and click Run to start...</em></div>".

Definition is_error (e : Element) : bool :=
  match e with
  | st_error _ => true
  | _ => false
  end.

(** ** Concrete worlds and states used by the examples *)

Definition demo_world : World := {|
  HF_API_KEY := Some "hf_demo";
  SummarizationPipeline := fun _ => Returns tt;
  summarize := fun text method length => Returns (method +:+ "/" +:+ length +:+ ": " +:+ text);
  paraphrase := fun _ => Throws "503 Service Unavailable";
  Path_home := Returns "/home/user";
  open_w := fun _ => Returns tt;
  write := fun _ _ => Returns tt
|}.

Definition no_key_world : World := {|
  HF_API_KEY := None;
  SummarizationPipeline := fun _ => Returns tt;
  summarize := fun _ _ _ => Returns "summary";
  paraphrase := fun _ => Returns "paraphrase";
  Path_home := Returns "/home/user";
  open_w := fun _ => Returns tt;
  write := fun _ _ => Returns tt
|}.

Definition first_visit : State := execution ∅ false ∅.

Definition after_summary : State :=
  execution
    (<["text_input" := "some long text"]>
       (<["text_output" := "a summary"]> (<["mode" := "summary"]> ∅)))
    true ∅.

Definition click (b : option Button) (t : Task) (text : option string) : Frontend :=
  {| task_choice := t; style_choice := Abstractive; length_choice := Medium;
     typed := text; clicked := b |}.

(** ** Further readings of the trace and the states the script passes through *)

Definition is_construction (e : Effect) : bool :=
  match e with
  | new_SummarizationPipeline _ => true
  | _ => false
  end.

Definition constructions (s : State) : list Effect := filter is_construction (trace s).

(** The constructor call of lines 118-121, made only on a cache miss. *)
Definition cache_miss (w : World) (cached : bool) : list Effect :=
  if cached then [] else [new_SummarizationPipeline (token w)].

(** The state in which the handlers of lines 190-231 start. *)
Definition at_handlers (w : World) (ui : Frontend) (session : gmap string string)
    (cached : bool) (files : gmap string string) : State :=
  {| session_state := synced ui session; pipeline_cached := true; disk := files;
     page := page_above_output; trace := cache_miss w cached |}.

(** What the output section shows when no inference runs (lines 219-222). *)
Definition previous_output (session : gmap string string) : Element :=
  if truthy (field "text_output" session)
  then st_text_area "Previous Output" (field "text_output" session)
  else placeholder.

(** The three keys of lines 105-108. *)
Definition session_keys : list string := ["text_input"; "text_output"; "mode"].

Definition broken_pipeline_world : World := {|
  HF_API_KEY := Some "hf_demo";
  SummarizationPipeline := fun _ => Throws "401 Unauthorized";
  summarize := fun _ _ _ => Returns "summary";
  paraphrase := fun _ => Returns "paraphrase";
  Path_home := Returns "/home/user";
  open_w := fun _ => Returns tt;
  write := fun _ _ => Returns tt
|}.

Definition no_home_world : World := {|
  HF_API_KEY := Some "hf_demo";
  SummarizationPipeline := fun _ => Returns tt;
  summarize := fun _ _ _ => Returns "summary";
  paraphrase := fun _ => Returns "paraphrase";
  Path_home := Throws "Could not determine home directory.";
  open_w := fun _ => Returns tt;
  write := fun _ _ => Returns tt
|}.

Definition silent_world : World := {|
  HF_API_KEY := Some "hf_demo";
  SummarizationPipeline := fun _ => Returns tt;
  summarize := fun _ _ _ => Returns "";
  paraphrase := fun _ => Returns "";
  Path_home := Returns "/home/user";
  open_w := fun _ => Returns tt;
  write := fun _ _ => Returns tt
|}.

(** The state a Run click on a non-empty text ends in (lines 198-217). *)
Definition after_run (w : World) (ui : Frontend) (session : gmap string string)
    (cached : bool) (files : gmap string string) : State :=
  {| session_state :=
       match response w ui (entered ui session) with
       | Returns result =>
           <["text_output" := result]> (<["mode" := mode_tag ui]> (synced ui session))
       | Throws _ => synced ui session
       end;
     pipeline_cached := true;
     disk := files;
     page :=
       page_above_output ++
       [st_subheader "📄 Output"; st_spinner "Processing with AI..."] ++
       match response w ui (entered ui session) with
       | Returns result =>
           [st_success "✅ Completed successfully."; st_text_area "Result" result]
       | Throws msg => [st_error ("⚠️ Error: " +:+ msg)]
       end ++ [st_markdown FOOTER];
     trace := cache_miss w cached ++ [request ui (entered ui session)] |}.

(** The state in which the save branch of lines 225-231 starts. *)
Definition before_save (w : World) (ui : Frontend) (session : gmap string string)
    (cached : bool) (files : gmap string string) : State :=
  with_page (st_text_area "Previous Output" (field "text_output" session))
    (with_page (st_subheader "📄 Output") (at_handlers w ui session cached files)).

(** The end of the save branch: the message of lines 228-231, then the
    footer. *)
Definition report_save (saved_path : option string) (s : State) : State :=
  with_page (st_markdown FOOTER)
    (with_page
       match saved_path with
       | Some path => st_success ("💾 File saved to: " +:+ path)
       | None => st_error "⚠️ Could not save file"
       end s).

(** * Proofs *)

(** ** Symbolic execution *)

Ltac run :=
  cbv beta iota zeta delta
    [script init_session api_key_check load_pipeline get_pipeline sidebar
     main_header input_section clear_handler output_section inference
     save_handler save_file open_for_writing write_and_close str_lower
     bind ret raise try_except when for_ show st_stop st_rerun getattr setattr
     contains keys external answer
     with_session with_cached with_disk with_page with_trace execution
     session_state pipeline_cached disk page trace
     run_btn clear_btn save_btn task_option selection request response mode_tag
     negb andb orb fst snd app
     String.eqb Ascii.eqb Bool.eqb].

(** The same, leaving [save_file] folded. *)
Ltac run_ui :=
  cbv beta iota zeta delta
    [script init_session api_key_check load_pipeline get_pipeline sidebar
     main_header input_section clear_handler output_section inference
     save_handler str_lower
     bind ret raise try_except when for_ show st_stop st_rerun getattr setattr
     contains keys external answer
     with_session with_cached with_disk with_page with_trace execution
     session_state pipeline_cached disk page trace
     run_btn clear_btn save_btn task_option selection request response mode_tag
     negb andb orb fst snd app
     String.eqb Ascii.eqb Bool.eqb].

Ltac open_state s :=
  destruct s as [?ss ?c ?d ?p ?t];
  unfold app, input_text, output_text, mode, inference_calls, file_accesses;
  cbn [session_state pipeline_cached disk page trace].

Lemma init_session_eq s : init_session s = (Ret tt, with_session defaults s).
Proof.
  destruct s as [ss c d p t].
  unfold defaults, set_default. run.
  repeat (case_bool_decide; cbn [negb]); reflexivity.
Qed.

Lemma lookup_set_default key k (session : gmap string string) :
  set_default key session !! k =
  if decide (key = k) then Some (field key session) else session !! k.
Proof.
  unfold set_default, field.
  case_bool_decide as H; case_decide as E; subst; try done.
  - destruct H as [v ->]. done.
  - rewrite lookup_insert_eq. destruct (session !! k) eqn:Hk; [|done].
    exfalso; apply H; eauto.
  - by rewrite lookup_insert_ne.
Qed.

Lemma field_set_default key k session :
  field k (set_default key session) = field k session.
Proof.
  unfold field at 1. rewrite lookup_set_default.
  case_decide; subst; done.
Qed.

Lemma defaults_text_input session :
  defaults session !! "text_input" = Some (field "text_input" session).
Proof. unfold defaults. by rewrite !lookup_set_default. Qed.

Lemma defaults_text_output session :
  defaults session !! "text_output" = Some (field "text_output" session).
Proof.
  unfold defaults. rewrite !lookup_set_default.
  repeat (case_decide; try done). by rewrite field_set_default.
Qed.

Lemma defaults_mode session :
  defaults session !! "mode" = Some (field "mode" session).
Proof.
  unfold defaults. rewrite !lookup_set_default.
  repeat (case_decide; try done). by rewrite !field_set_default.
Qed.

Lemma synced_text_input ui session :
  synced ui session !! "text_input" = Some (entered ui session).
Proof. unfold synced. by rewrite lookup_insert_eq. Qed.

Lemma synced_text_output ui session :
  synced ui session !! "text_output" = Some (field "text_output" session).
Proof. unfold synced. rewrite lookup_insert_ne by done. apply defaults_text_output. Qed.

Lemma synced_mode ui session :
  synced ui session !! "mode" = Some (field "mode" session).
Proof. unfold synced. rewrite lookup_insert_ne by done. apply defaults_mode. Qed.

(** With the credential present and the pipeline available, the script
    reaches the handlers in a state whose session is [synced]. *)
Lemma script_started w ui session cached files :
  starts w cached = true ->
  script w ui (execution session cached files) =
  (let '(task, style, length) := selection ui in
   clear_handler ui ;;
   output_section w ui task style length (entered ui session) ;;
   save_handler w ui ;;
   show (st_markdown FOOTER))
    {| session_state := synced ui session; pipeline_cached := true; disk := files;
       page := page_above_output;
       trace := if cached then [] else [new_SummarizationPipeline (token w)] |}.
Proof.
  unfold starts. intros [Htok Hc]%andb_true_iff.
  unfold script.
  unfold bind at 1. cbn [show].
  unfold bind at 1. rewrite init_session_eq.
  unfold bind at 1. unfold api_key_check. rewrite Htok. cbn [negb when ret].
  unfold bind at 1.
  assert (load_pipeline w
            (with_session defaults
               (with_page (st_markdown CUSTOM_CSS) (execution session cached files))) =
          (Ret tt,
           {| session_state := defaults session; pipeline_cached := true;
              disk := files; page := [st_markdown CUSTOM_CSS];
              trace := if cached then [] else [new_SummarizationPipeline (token w)] |}))
    as ->.
  { unfold token in *. destruct cached; run; [reflexivity|].
    cbn [orb] in Hc. destruct (SummarizationPipeline w _); [reflexivity|discriminate]. }
  unfold entered.
  destruct (task_choice ui) eqn:Etask; run; rewrite Etask;
    rewrite defaults_text_input; reflexivity.
Qed.

(** The loop of lines 191-192. *)
Lemma for_setattr_blank ks s :
  for_ ks (fun k => setattr k "") s =
  (Ret tt, with_session (fun m => foldl (fun m k => <[k:=""]> m) m ks) s).
Proof.
  revert s. induction ks as [|k ks IH]; intros [ss c d p t].
  - reflexivity.
  - cbn [for_ foldl]. unfold bind. cbn [setattr]. rewrite IH. reflexivity.
Qed.

Lemma lookup_foldl_blank ks (m : gmap string string) k :
  foldl (fun m k => <[k:=""]> m) m ks !! k =
  if decide (k ∈ ks) then Some "" else m !! k.
Proof.
  revert m. induction ks as [|k' ks IH]; intros m; cbn [foldl].
  - case_decide as H; [by apply elem_of_nil in H|done].
  - rewrite IH. destruct (decide (k = k')) as [->|Hne].
    + rewrite lookup_insert_eq. rewrite (decide_True (P := k' ∈ k' :: ks)) by left.
      by case_decide.
    + rewrite lookup_insert_ne by done.
      case_decide as H1; case_decide as H2; try done.
      * exfalso. apply H2. by right.
      * exfalso. apply elem_of_cons in H2 as [?|?]; done.
Qed.

Lemma lookup_blank (session : gmap string string) k :
  blank session !! k = (fun _ => "") <$> session !! k.
Proof.
  unfold blank. rewrite lookup_foldl_blank.
  case_decide as H.
  - apply elem_of_elements, elem_of_dom in H as [v ->]. done.
  - destruct (session !! k) eqn:Hk; [|done].
    exfalso. apply H, elem_of_elements, elem_of_dom. eauto.
Qed.

Lemma clear_handler_clicked ui s :
  clicked ui = Some Clear ->
  clear_handler ui s = (Raise RerunException, with_session blank s).
Proof.
  intros Hc. unfold clear_handler, clear_btn. rewrite Hc. cbn [when].
  unfold bind at 1. cbn [keys]. unfold bind at 1.
  rewrite for_setattr_blank. destruct s; reflexivity.
Qed.

(** ** [save_file] *)

(** What [save_file] does, by the three places where it can fail. *)
Lemma save_file_eq w content filename s :
  save_file w content filename s =
  match Path_home w with
  | Throws _ => (Ret None, s)
  | Returns home =>
      let path := download_path home filename in
      let opened := with_disk (insert path "") (with_trace (call_open path) s) in
      match open_w w path with
      | Throws _ => (Ret None, with_trace (call_open path) s)
      | Returns _ =>
          match write w path content with
          | Throws _ => (Ret None, with_trace (call_write path content) opened)
          | Returns _ =>
              (Ret (Some path),
               with_disk (insert path content)
                 (with_trace (call_write path content) opened))
          end
      end
  end.
Proof.
  run. destruct (Path_home w) as [home|]; [|reflexivity].
  destruct (open_w w _); [|reflexivity].
  destruct (write w _ _); reflexivity.
Qed.

(** C10: [save_file] never lets an exception reach its caller: for every
    content, file name and state it returns, and what it returns is either
    [None] or the path of the file it opened and wrote, as a string; the
    disk then holds the content at that path. *)
Theorem save_file_never_raises w content filename s :
  exists r s',
    save_file w content filename s = (Ret r, s') /\
    (r = None \/
     exists home,
       Path_home w = Returns home /\
       r = Some (download_path home filename) /\
       disk s' !! download_path home filename = Some content).
Proof.
  rewrite save_file_eq.
  destruct (Path_home w) as [home|]; [|eauto].
  cbv zeta. destruct (open_w w _); [|eauto].
  destruct (write w _ _); [|eauto].
  eexists _, _. split; [reflexivity|]. right. exists home.
  repeat split. cbn [with_disk disk]. apply lookup_insert_eq.
Qed.

(** ** Start-up *)

(** C7: without the credential the script stops at line 116.  It has shown
    the error and the link, constructed no pipeline, made no call, and left
    the disk and the cache alone; the session only got its defaults. *)
Theorem missing_credential_halts w ui s :
  truthy_env (HF_TOKEN w) = false ->
  app w ui s =
  (Raise StopException,
   {| session_state := defaults (session_state s);
      pipeline_cached := pipeline_cached s;
      disk := disk s;
      page :=
        [st_markdown CUSTOM_CSS;
         st_error "⚠️ Missing Hugging Face API Key. Add it in `src/.env`.";
         st_markdown
           "Get one here: [Hugging Face Tokens](https://huggingface.co/settings/tokens)"];
      trace := [] |}).
Proof.
  intros Htok. unfold app, script.
  unfold bind at 1. cbn [show].
  unfold bind at 1. rewrite init_session_eq.
  unfold bind at 1. unfold api_key_check. rewrite Htok.
  reflexivity.
Qed.

Lemma missing_credential_halts_witness :
  truthy_env (HF_TOKEN no_key_world) = false /\
  fst (app no_key_world (click (Some Run) Summarization (Some "text")) first_visit) =
  Raise StopException.
Proof.
  split; [reflexivity|].
  rewrite (missing_credential_halts no_key_world
             (click (Some Run) Summarization (Some "text")) first_visit);
    reflexivity.
Defined.

(** ** Clear *)

(** X17: the execution of a Clear click ends in [st.rerun()], and at that
    point every key of the session, and so [text_input], [text_output] and
    [mode], holds the empty string, whatever the session was.  What the
    rerun then stores is a separate matter. *)
Theorem clear_resets_session w ui s :
  starts w (pipeline_cached s) = true ->
  clicked ui = Some Clear ->
  exists s',
    app w ui s = (Raise RerunException, s') /\
    session_state s' !! "text_input" = Some "" /\
    session_state s' !! "text_output" = Some "" /\
    session_state s' !! "mode" = Some "" /\
    (forall k v, session_state s' !! k = Some v -> v = "").
Proof.
  intros Hstart Hclick. unfold app.
  rewrite script_started by done.
  destruct (selection ui) as [[task style] length].
  unfold bind at 1. rewrite clear_handler_clicked by done.
  eexists. split; [reflexivity|].
  cbn [with_session session_state].
  rewrite !lookup_blank, synced_text_input, synced_text_output, synced_mode.
  repeat split; try done.
  intros k v. rewrite lookup_blank. destruct (synced ui _ !! k); naive_solver.
Qed.

Lemma clear_resets_session_witness :
  starts demo_world (pipeline_cached after_summary) = true /\
  clicked (click (Some Clear) Summarization None) = Some Clear /\
  exists s',
    app demo_world (click (Some Clear) Summarization None) after_summary =
      (Raise RerunException, s') /\
    session_state s' !! "text_input" = Some "" /\
    session_state s' !! "text_output" = Some "" /\
    session_state s' !! "mode" = Some "" /\
    (forall k v, session_state s' !! k = Some v -> v = "").
Proof.
  split; [reflexivity|]. split; [reflexivity|].
  apply clear_resets_session; reflexivity.
Defined.

(** ** Run *)

Lemma field_synced_text_output ui session :
  field "text_output" (synced ui session) = field "text_output" session.
Proof. unfold field at 1. by rewrite synced_text_output. Qed.

Lemma field_synced_mode ui session :
  field "mode" (synced ui session) = field "mode" session.
Proof. unfold field at 1. by rewrite synced_mode. Qed.

Lemma lower_style_option m : lower (style_option m) = method_name m.
Proof. by destruct m. Qed.

Lemma lower_length_option l : lower (length_option l) = length_name l.
Proof. by destruct l. Qed.

Lemma filter_inference_start w (c : bool) (calls : list Effect) :
  filter is_inference
    ((if c then [] else [new_SummarizationPipeline (token w)]) ++ calls) =
  filter is_inference calls.
Proof. destruct c; reflexivity. Qed.

(** What a Run click on a non-empty text does, by the answer of the call. *)
Lemma run_click_eq w ui session cached files :
  starts w cached = true ->
  clicked ui = Some Run ->
  truthy (entered ui session) = true ->
  script w ui (execution session cached files) =
  (Ret tt,
   {| session_state :=
        match response w ui (entered ui session) with
        | Returns result =>
            <["text_output" := result]> (<["mode" := mode_tag ui]> (synced ui session))
        | Throws _ => synced ui session
        end;
      pipeline_cached := true;
      disk := files;
      page :=
        page_above_output ++
        [st_subheader "📄 Output"; st_spinner "Processing with AI..."] ++
        match response w ui (entered ui session) with
        | Returns result =>
            [st_success "✅ Completed successfully."; st_text_area "Result" result]
        | Throws msg => [st_error ("⚠️ Error: " +:+ msg)]
        end ++ [st_markdown FOOTER];
      trace :=
        (if cached then [] else [new_SummarizationPipeline (token w)]) ++
        [request ui (entered ui session)] |}).
Proof.
  intros Hstart Hclick Htext.
  rewrite script_started by done.
  destruct (task_choice ui) eqn:Etask; run; rewrite Etask, Hclick, Htext; run.
  - destruct (summarize w _ _ _); reflexivity.
  - destruct (paraphrase w _); reflexivity.
Qed.

(** What a Run click does on an empty text area. *)
Lemma idle_run_eq w ui session cached files :
  starts w cached = true ->
  clicked ui = Some Run ->
  truthy (entered ui session) = false ->
  script w ui (execution session cached files) =
  (Ret tt,
   {| session_state := synced ui session; pipeline_cached := true; disk := files;
      page :=
        page_above_output ++
        [st_subheader "📄 Output";
         if truthy (field "text_output" session)
         then st_text_area "Previous Output" (field "text_output" session)
         else placeholder;
         st_markdown FOOTER];
      trace := if cached then [] else [new_SummarizationPipeline (token w)] |}).
Proof.
  intros Hstart Hclick Htext.
  rewrite script_started by done.
  destruct (selection ui) as [[task style] length].
  run; rewrite Hclick, Htext; run.
  rewrite synced_text_output.
  destruct (truthy (field "text_output" session)); reflexivity.
Qed.

(** C1: when the call made by a Run click raises, the message is shown in an
    error box and nothing else happens to the session: [text_output] and
    [mode] hold what they held before the click. *)
Theorem failed_run_keeps_output w ui s msg :
  starts w (pipeline_cached s) = true ->
  clicked ui = Some Run ->
  truthy (entered ui (session_state s)) = true ->
  response w ui (entered ui (session_state s)) = Throws msg ->
  exists s',
    app w ui s = (Ret tt, s') /\
    page s' =
      page_above_output ++
      [st_subheader "📄 Output"; st_spinner "Processing with AI...";
       st_error ("⚠️ Error: " +:+ msg); st_markdown FOOTER] /\
    output_text s' = output_text s /\
    mode s' = mode s /\
    session_state s' = synced ui (session_state s).
Proof.
  open_state s. intros Hstart Hclick Htext Hfail.
  rewrite run_click_eq by done. rewrite Hfail.
  eexists; split; [reflexivity|]. cbn [session_state page].
  rewrite field_synced_text_output, field_synced_mode. done.
Qed.

Lemma failed_run_keeps_output_witness :
  exists s',
    app demo_world (click (Some Run) Paraphrasing (Some "new text")) after_summary =
      (Ret tt, s') /\
    page s' =
      page_above_output ++
      [st_subheader "📄 Output"; st_spinner "Processing with AI...";
       st_error ("⚠️ Error: " +:+ "503 Service Unavailable"); st_markdown FOOTER] /\
    output_text s' = "a summary" /\
    mode s' = "summary" /\
    session_state s' =
      synced (click (Some Run) Paraphrasing (Some "new text")) (session_state after_summary).
Proof.
  apply (failed_run_keeps_output demo_world
           (click (Some Run) Paraphrasing (Some "new text")) after_summary
           "503 Service Unavailable"); reflexivity.
Defined.

(** C8, as the code has it: a Run click on a non-empty text makes exactly one
    inference call, [summarize] or [paraphrase] by the task selected, on the
    text held in the session; when the call returns, its result is stored in
    [text_output] and [mode] becomes ["summary"] or ["paraphrase"]
    accordingly. *)
Theorem run_calls_one_inference w ui s :
  starts w (pipeline_cached s) = true ->
  clicked ui = Some Run ->
  truthy (entered ui (session_state s)) = true ->
  exists s',
    app w ui s = (Ret tt, s') /\
    input_text s' = entered ui (session_state s) /\
    inference_calls s' =
      [match task_choice ui with
       | Summarization =>
           call_summarize (input_text s') (lower (style_option (style_choice ui)))
             (lower (length_option (length_choice ui)))
       | Paraphrasing => call_paraphrase (input_text s')
       end] /\
    (forall result,
       response w ui (input_text s') = Returns result ->
       output_text s' = result /\
       mode s' = match task_choice ui with
                 | Summarization => "summary"
                 | Paraphrasing => "paraphrase"
                 end).
Proof.
  open_state s. intros Hstart Hclick Htext.
  rewrite run_click_eq by done.
  eexists; split; [reflexivity|]. cbn [session_state trace].
  assert (field "text_input"
            match response w ui (entered ui ss) with
            | Returns result =>
                <["text_output" := result]> (<["mode" := mode_tag ui]> (synced ui ss))
            | Throws _ => synced ui ss
            end = entered ui ss) as ->.
  { unfold field. destruct (response w ui _).
    - rewrite !lookup_insert_ne by done. by rewrite synced_text_input.
    - by rewrite synced_text_input. }
  split; [done|]. split.
  - rewrite filter_inference_start. unfold request. by destruct (task_choice ui).
  - intros result ->. unfold field, mode_tag.
    rewrite lookup_insert_eq, lookup_insert_ne, lookup_insert_eq by done.
    by destruct (task_choice ui).
Qed.

Lemma run_calls_one_inference_witness :
  exists s',
    app demo_world (click (Some Run) Summarization (Some "some long text")) first_visit =
      (Ret tt, s') /\
    input_text s' = "some long text" /\
    inference_calls s' = [call_summarize (input_text s') "abstractive" "medium"] /\
    (forall result,
       response demo_world (click (Some Run) Summarization (Some "some long text"))
         (input_text s') = Returns result ->
       output_text s' = result /\ mode s' = "summary").
Proof.
  apply (run_calls_one_inference demo_world
           (click (Some Run) Summarization (Some "some long text")) first_visit);
    reflexivity.
Defined.

(** C8 as stated fails: a Run click on an empty text area calls neither
    [summarize] nor [paraphrase]. *)
Lemma run_on_empty_input_calls_nothing :
  clicked (click (Some Run) Summarization (Some "")) = Some Run /\
  starts demo_world (pipeline_cached first_visit) = true /\
  ~ exists call,
      inference_calls
        (snd (app demo_world (click (Some Run) Summarization (Some "")) first_visit)) =
      [call].
Proof.
  split; [reflexivity|]. split; [reflexivity|].
  intros [call H]. vm_compute in H. discriminate H.
Qed.

(** C9: a Run click on an empty text area makes no inference call and
    leaves [text_output] and [mode] as they were; the output section shows
    the previous output when there is one, the placeholder otherwise. *)
Theorem run_on_empty_input_is_noop w ui s :
  starts w (pipeline_cached s) = true ->
  clicked ui = Some Run ->
  truthy (entered ui (session_state s)) = false ->
  exists s',
    app w ui s = (Ret tt, s') /\
    inference_calls s' = [] /\
    output_text s' = output_text s /\
    mode s' = mode s /\
    page s' =
      page_above_output ++
      [st_subheader "📄 Output";
       if truthy (output_text s)
       then st_text_area "Previous Output" (output_text s)
       else placeholder;
       st_markdown FOOTER].
Proof.
  open_state s. intros Hstart Hclick Htext.
  rewrite idle_run_eq by done.
  eexists; split; [reflexivity|]. cbn [session_state page trace].
  rewrite field_synced_text_output, field_synced_mode. destruct c; done.
Qed.

Lemma run_on_empty_input_is_noop_witness :
  exists s',
    app demo_world (click (Some Run) Summarization (Some "")) after_summary = (Ret tt, s') /\
    inference_calls s' = [] /\
    output_text s' = "a summary" /\
    mode s' = "summary" /\
    page s' =
      page_above_output ++
      [st_subheader "📄 Output"; st_text_area "Previous Output" "a summary";
       st_markdown FOOTER].
Proof.
  apply (run_on_empty_input_is_noop demo_world
           (click (Some Run) Summarization (Some "")) after_summary); reflexivity.
Defined.

(** C5: on a Run click, every [summarize] call of the execution carries the
    text entered and the method and length selected in the sidebar, the
    option strings being lower-cased into the request's values
    (["Abstractive"] is sent as ["abstractive"], ["Medium"] as ["medium"]);
    and with the task set to summarization and a non-empty text that call is
    the one call made. *)
Theorem run_forwards_method_and_length w ui s :
  starts w (pipeline_cached s) = true ->
  clicked ui = Some Run ->
  exists s',
    app w ui s = (Ret tt, s') /\
    (forall text method length,
       call_summarize text method length ∈ trace s' ->
       text = entered ui (session_state s) /\
       method = method_name (style_choice ui) /\
       length = length_name (length_choice ui)) /\
    (task_choice ui = Summarization ->
     truthy (entered ui (session_state s)) = true ->
     inference_calls s' =
       [call_summarize (entered ui (session_state s))
          (method_name (style_choice ui)) (length_name (length_choice ui))]) /\
    method_name (style_choice ui) = lower (style_option (style_choice ui)) /\
    length_name (length_choice ui) = lower (length_option (length_choice ui)).
Proof.
  intros Hstart Hclick.
  destruct (truthy (entered ui (session_state s))) eqn:Htext.
  - open_state s. rewrite run_click_eq by done.
    eexists; split; [reflexivity|]. cbn [trace].
    rewrite !lower_style_option, !lower_length_option.
    split; [|split; [|done]].
    + intros text method length Hin.
      apply elem_of_app in Hin as [Hin|Hin].
      { destruct c; [by apply elem_of_nil in Hin|].
        apply list_elem_of_singleton in Hin. discriminate Hin. }
      apply list_elem_of_singleton in Hin. unfold request in Hin.
      destruct (task_choice ui); [|discriminate Hin].
      rewrite lower_style_option, lower_length_option in Hin.
      by injection Hin as -> -> ->.
    + intros Etask _. rewrite filter_inference_start. unfold request.
      by rewrite Etask, lower_style_option, lower_length_option.
  - open_state s. rewrite idle_run_eq by done.
    eexists; split; [reflexivity|]. cbn [trace].
    rewrite !lower_style_option, !lower_length_option.
    split; [|split; [|done]].
    + intros text method length Hin.
      destruct c; [by apply elem_of_nil in Hin|].
      apply list_elem_of_singleton in Hin. discriminate Hin.
    + intros _ ?. done.
Qed.

Lemma run_forwards_method_and_length_witness :
  exists s',
    app demo_world (click (Some Run) Summarization (Some "some long text")) first_visit =
      (Ret tt, s') /\
    inference_calls s' = [call_summarize "some long text" "abstractive" "medium"].
Proof.
  destruct (run_forwards_method_and_length demo_world
              (click (Some Run) Summarization (Some "some long text")) first_visit)
    as (s' & Hrun & _ & Hcalls & _); [reflexivity|reflexivity|].
  exists s'. split; [exact Hrun|]. apply Hcalls; reflexivity.
Defined.

(** ** Save *)

Lemma truthy_joinpath dir name : truthy (joinpath dir name) = true.
Proof.
  unfold joinpath, str_path. cbv zeta.
  destruct (truthy (path_root _ +:+ _)) eqn:H; [exact H|reflexivity].
Qed.

Lemma download_name_eq mode :
  download_name mode =
  if bool_decide (mode = "summary") then "AI_output.txt" else "AI_paraphrase.txt".
Proof.
  unfold download_name. case_bool_decide as H.
  - by apply String.eqb_eq in H as ->.
  - by apply String.eqb_neq in H as ->.
Qed.

(** What a Save click does when there is an output to save. *)
Lemma save_click_eq w ui session cached files :
  starts w cached = true ->
  clicked ui = Some Save ->
  truthy (field "text_output" session) = true ->
  script w ui (execution session cached files) =
  (let '(saved_path, s') :=
     save_file w (field "text_output" session) (download_name (field "mode" session))
       {| session_state := synced ui session; pipeline_cached := true; disk := files;
          page :=
            page_above_output ++
            [st_subheader "📄 Output";
             st_text_area "Previous Output" (field "text_output" session)];
          trace := if cached then [] else [new_SummarizationPipeline (token w)] |} in
   match saved_path with
   | Ret (Some path) =>
       (Ret tt,
        with_page (st_markdown FOOTER)
          (with_page (st_success ("💾 File saved to: " +:+ path)) s'))
   | _ =>
       (Ret tt,
        with_page (st_markdown FOOTER)
          (with_page (st_error "⚠️ Could not save file") s'))
   end).
Proof.
  intros Hstart Hclick Hout.
  rewrite script_started by done.
  destruct (selection ui) as [[task style] length].
  run_ui; rewrite Hclick; run_ui.
  rewrite synced_text_output; run_ui. rewrite Hout; run_ui.
  rewrite synced_text_output; run_ui. rewrite Hout; run_ui.
  rewrite synced_mode; run_ui. rewrite synced_text_output; run_ui.
  rewrite !save_file_eq.
  destruct (Path_home w) as [home|]; [|reflexivity].
  cbv zeta. destruct (open_w w _); [|reflexivity].
  destruct (write w _ _); [|reflexivity].
  run_ui. unfold download_path. rewrite truthy_joinpath. reflexivity.
Qed.

(** What a Save click does when there is nothing to save. *)
Lemma idle_save_eq w ui session cached files :
  starts w cached = true ->
  clicked ui = Some Save ->
  truthy (field "text_output" session) = false ->
  script w ui (execution session cached files) =
  (Ret tt,
   {| session_state := synced ui session; pipeline_cached := true; disk := files;
      page := page_above_output ++
              [st_subheader "📄 Output"; placeholder; st_markdown FOOTER];
      trace := if cached then [] else [new_SummarizationPipeline (token w)] |}).
Proof.
  intros Hstart Hclick Hout.
  rewrite script_started by done.
  destruct (selection ui) as [[task style] length].
  run_ui; rewrite Hclick; run_ui.
  rewrite synced_text_output; run_ui. rewrite Hout; run_ui.
  rewrite synced_text_output; run_ui. rewrite Hout; run_ui.
  reflexivity.
Qed.

(** C2, as the code has it: a Save click with no output in the session
    opens and writes no file and leaves the disk alone, and it tells the user
    nothing about it: the page carries the placeholder and no error (or
    success) box. *)
Theorem save_without_output_is_silent w ui s :
  starts w (pipeline_cached s) = true ->
  clicked ui = Some Save ->
  truthy (output_text s) = false ->
  exists s',
    app w ui s = (Ret tt, s') /\
    file_accesses s' = [] /\
    disk s' = disk s /\
    page s' =
      page_above_output ++ [st_subheader "📄 Output"; placeholder; st_markdown FOOTER] /\
    filter is_error (page s') = [].
Proof.
  open_state s. intros Hstart Hclick Hout.
  rewrite idle_save_eq by done.
  eexists; split; [reflexivity|]. cbn [disk page trace].
  destruct c; done.
Qed.

Lemma save_without_output_is_silent_witness :
  exists s',
    app demo_world (click (Some Save) Summarization None) first_visit = (Ret tt, s') /\
    file_accesses s' = [] /\
    disk s' = ∅ /\
    page s' =
      page_above_output ++ [st_subheader "📄 Output"; placeholder; st_markdown FOOTER] /\
    filter is_error (page s') = [].
Proof.
  apply (save_without_output_is_silent demo_world
           (click (Some Save) Summarization None) first_visit); reflexivity.
Defined.

(** C2 as stated fails: after a Save click with no output in the session the
    page shows no error. *)
Lemma save_without_output_reports_nothing :
  clicked (click (Some Save) Summarization None) = Some Save /\
  output_text first_visit = "" /\
  ~ exists body,
      st_error body ∈
        page (snd (app demo_world (click (Some Save) Summarization None) first_visit)).
Proof.
  split; [reflexivity|]. split; [reflexivity|].
  intros [body H]. vm_compute in H.
  repeat (apply elem_of_cons in H as [H|H]; [discriminate H|]).
  by apply elem_of_nil in H.
Qed.

(** C3: a Save click with an output in the session, a home directory and a
    target that can be opened and written leaves on disk, at the target, a
    file holding exactly [text_output]; no other file changes. *)
Theorem save_writes_output w ui s home :
  starts w (pipeline_cached s) = true ->
  clicked ui = Some Save ->
  truthy (output_text s) = true ->
  Path_home w = Returns home ->
  writable w (download_path home (download_name (mode s))) (output_text s) = true ->
  exists s',
    app w ui s = (Ret tt, s') /\
    disk s' !! download_path home (download_name (mode s)) = Some (output_text s) /\
    disk s' = <[download_path home (download_name (mode s)) := output_text s]> (disk s) /\
    output_text s' = output_text s.
Proof.
  open_state s. intros Hstart Hclick Hout Hhome Hw.
  rewrite save_click_eq by done. rewrite save_file_eq, Hhome. cbv zeta.
  unfold writable in Hw.
  destruct (open_w w _); [|discriminate Hw].
  destruct (write w _ _); [|discriminate Hw].
  eexists; split; [reflexivity|]. cbn [with_page with_disk with_trace disk session_state].
  rewrite insert_insert_eq, lookup_insert_eq, field_synced_text_output. done.
Qed.

Lemma save_writes_output_witness :
  exists s',
    app demo_world (click (Some Save) Summarization None) after_summary = (Ret tt, s') /\
    disk s' !! "/home/user/Downloads/AI_output.txt" = Some "a summary" /\
    disk s' = <["/home/user/Downloads/AI_output.txt" := "a summary"]> ∅ /\
    output_text s' = "a summary".
Proof.
  apply (save_writes_output demo_world (click (Some Save) Summarization None)
           after_summary "/home/user"); reflexivity.
Defined.

(** C6: a Save click with an output in the session goes for one file,
    [AI_output.txt] when [mode] is ["summary"] and [AI_paraphrase.txt]
    otherwise, in [Downloads] under the home directory, and writes
    [text_output] to it; and [save_file] returns that path when the file could
    be opened and written, [None] when either failed. *)
Theorem save_target_and_result w ui s home content filename s0 :
  starts w (pipeline_cached s) = true ->
  clicked ui = Some Save ->
  truthy (output_text s) = true ->
  Path_home w = Returns home ->
  let target :=
    joinpath (joinpath home "Downloads")
      (if bool_decide (mode s = "summary") then "AI_output.txt" else "AI_paraphrase.txt") in
  (exists s',
     app w ui s = (Ret tt, s') /\
     file_accesses s' =
       call_open target ::
       match open_w w target with
       | Returns _ => [call_write target (output_text s)]
       | Throws _ => []
       end /\
     (if writable w target (output_text s)
      then disk s' !! target = Some (output_text s) /\
           st_success ("💾 File saved to: " +:+ target) ∈ page s'
      else st_error "⚠️ Could not save file" ∈ page s')) /\
  fst (save_file w content filename s0) =
    Ret (if writable w (joinpath (joinpath home "Downloads") filename) content
         then Some (joinpath (joinpath home "Downloads") filename)
         else None).
Proof.
  open_state s. intros Hstart Hclick Hout Hhome. split.
  - rewrite save_click_eq by done. rewrite save_file_eq, Hhome. cbv zeta.
    rewrite download_name_eq. unfold download_path.
    set (target := joinpath (joinpath home "Downloads") _).
    unfold writable.
    destruct (open_w w target); [destruct (write w target _)|];
      (eexists; split; [reflexivity|]);
      cbn [with_page with_disk with_trace disk page trace];
      (split; [destruct c; reflexivity|]).
    + split; [by rewrite lookup_insert_eq|].
      rewrite !elem_of_app, !list_elem_of_singleton. auto.
    + rewrite !elem_of_app, !list_elem_of_singleton. auto.
    + rewrite !elem_of_app, !list_elem_of_singleton. auto.
  - rewrite save_file_eq, Hhome. cbv zeta. unfold writable, download_path.
    destruct (open_w w _); [destruct (write w _ _)|]; reflexivity.
Qed.

Lemma save_target_and_result_witness :
  (exists s',
     app demo_world (click (Some Save) Summarization None) after_summary = (Ret tt, s') /\
     file_accesses s' =
       [call_open "/home/user/Downloads/AI_output.txt";
        call_write "/home/user/Downloads/AI_output.txt" "a summary"] /\
     disk s' !! "/home/user/Downloads/AI_output.txt" = Some "a summary" /\
     st_success "💾 File saved to: /home/user/Downloads/AI_output.txt" ∈ page s') /\
  fst (save_file demo_world "hello" "notes.txt" first_visit) =
    Ret (Some "/home/user/Downloads/notes.txt").
Proof.
  apply (save_target_and_result demo_world (click (Some Save) Summarization None)
           after_summary "/home/user" "hello" "notes.txt" first_visit); reflexivity.
Defined.

(** * Further properties of the script *)

(** ** The remaining paths through the script *)

Lemma save_file_never_fails w content filename s :
  exists r s', save_file w content filename s = (Ret r, s').
Proof.
  rewrite save_file_eq.
  destruct (Path_home w) as [home|]; [|eauto].
  cbv zeta. destruct (open_w w _); [|eauto].
  destruct (write w _ _); eauto.
Qed.

Lemma script_no_credential w ui session cached files :
  truthy_env (HF_TOKEN w) = false ->
  script w ui (execution session cached files) =
  (Raise StopException,
   {| session_state := defaults session; pipeline_cached := cached; disk := files;
      page :=
        [st_markdown CUSTOM_CSS;
         st_error "⚠️ Missing Hugging Face API Key. Add it in `src/.env`.";
         st_markdown
           "Get one here: [Hugging Face Tokens](https://huggingface.co/settings/tokens)"];
      trace := [] |}).
Proof.
  intros Htok. unfold script.
  unfold bind at 1. cbn [show].
  unfold bind at 1. rewrite init_session_eq.
  unfold bind at 1. unfold api_key_check. rewrite Htok.
  reflexivity.
Qed.

Lemma script_pipeline_fails w ui session files msg :
  truthy_env (HF_TOKEN w) = true ->
  SummarizationPipeline w (token w) = Throws msg ->
  script w ui (execution session false files) =
  (Raise StopException,
   {| session_state := defaults session; pipeline_cached := false; disk := files;
      page := [st_markdown CUSTOM_CSS;
               st_error ("Failed to initialize pipeline: " +:+ msg)];
      trace := [new_SummarizationPipeline (token w)] |}).
Proof.
  intros Htok Hfail. unfold script.
  unfold bind at 1. cbn [show].
  unfold bind at 1. rewrite init_session_eq.
  unfold bind at 1. unfold api_key_check. rewrite Htok. cbn [negb when ret].
  unfold token in Hfail. run. rewrite Hfail. reflexivity.
Qed.

Lemma not_started w cached :
  starts w cached = false ->
  truthy_env (HF_TOKEN w) = false \/
  (truthy_env (HF_TOKEN w) = true /\ cached = false /\
   exists msg, SummarizationPipeline w (token w) = Throws msg).
Proof.
  unfold starts. destruct (truthy_env (HF_TOKEN w)); [|auto].
  destruct cached; [discriminate|]. cbn [andb orb].
  destruct (SummarizationPipeline w (token w)); [discriminate|]. eauto 6.
Qed.

Lemma clear_click_eq w ui session cached files :
  starts w cached = true ->
  clicked ui = Some Clear ->
  script w ui (execution session cached files) =
  (Raise RerunException, with_session blank (at_handlers w ui session cached files)).
Proof.
  intros Hstart Hclick. rewrite script_started by done.
  destruct (selection ui) as [[task style] length].
  unfold bind at 1. rewrite clear_handler_clicked by done. reflexivity.
Qed.

Lemma no_click_eq w ui session cached files :
  starts w cached = true ->
  clicked ui = None ->
  script w ui (execution session cached files) =
  (Ret tt,
   with_page (st_markdown FOOTER)
     (with_page (previous_output session)
        (with_page (st_subheader "📄 Output") (at_handlers w ui session cached files)))).
Proof.
  intros Hstart Hclick. rewrite script_started by done.
  destruct (selection ui) as [[task style] length].
  run; rewrite Hclick; run. rewrite synced_text_output.
  unfold previous_output. destruct (truthy (field "text_output" session)); reflexivity.
Qed.

Lemma run_click_after_run w ui session cached files :
  starts w cached = true ->
  clicked ui = Some Run ->
  truthy (entered ui session) = true ->
  script w ui (execution session cached files) =
  (Ret tt, after_run w ui session cached files).
Proof. intros. by rewrite run_click_eq. Qed.

Lemma save_click_report w ui session cached files :
  starts w cached = true ->
  clicked ui = Some Save ->
  truthy (field "text_output" session) = true ->
  script w ui (execution session cached files) =
  (let '(saved_path, s') :=
     save_file w (field "text_output" session) (download_name (field "mode" session))
       (before_save w ui session cached files) in
   (Ret tt, report_save (match saved_path with Ret r => r | Raise _ => None end) s')).
Proof.
  intros. rewrite save_click_eq by done.
  unfold before_save, at_handlers, cache_miss.
  destruct (save_file _ _ _ _) as [[[path|]|e] s']; reflexivity.
Qed.

(** The paths of one execution, all of them. *)
Lemma script_cases w ui session cached files (P : res unit * State -> Prop) :
  (starts w cached = false ->
   forall s', fst s' = Raise StopException ->
     session_state (snd s') = defaults session ->
     pipeline_cached (snd s') = cached ->
     disk (snd s') = files ->
     filter is_error (page (snd s')) <> [] ->
     (trace (snd s') = [] \/
      cached = false /\ trace (snd s') = [new_SummarizationPipeline (token w)]) ->
     P s') ->
  (starts w cached = true -> clicked ui = Some Clear ->
   P (Raise RerunException, with_session blank (at_handlers w ui session cached files))) ->
  (starts w cached = true ->
   clicked ui = None \/
   clicked ui = Some Run /\ truthy (entered ui session) = false \/
   clicked ui = Some Save /\ truthy (field "text_output" session) = false ->
   P (Ret tt,
      with_page (st_markdown FOOTER)
        (with_page (previous_output session)
           (with_page (st_subheader "📄 Output")
              (at_handlers w ui session cached files))))) ->
  (starts w cached = true -> clicked ui = Some Run ->
   truthy (entered ui session) = true ->
   P (Ret tt, after_run w ui session cached files)) ->
  (starts w cached = true -> clicked ui = Some Save ->
   truthy (field "text_output" session) = true ->
   forall saved_path s',
     save_file w (field "text_output" session) (download_name (field "mode" session))
       (before_save w ui session cached files) = (Ret saved_path, s') ->
     P (Ret tt, report_save saved_path s')) ->
  P (script w ui (execution session cached files)).
Proof.
  intros Hstop Hclear Hidle Hrun Hsave.
  destruct (starts w cached) eqn:Hstart.
  - destruct (clicked ui) as [[| |]|] eqn:Hclick.
    + destruct (truthy (entered ui session)) eqn:Htext.
      * rewrite run_click_after_run by done. by apply Hrun.
      * rewrite idle_run_eq by done. apply Hidle; auto.
    + rewrite clear_click_eq by done. by apply Hclear.
    + destruct (truthy (field "text_output" session)) eqn:Hout.
      * rewrite save_click_report by done.
        destruct (save_file_never_fails w (field "text_output" session)
                    (download_name (field "mode" session))
                    (before_save w ui session cached files)) as (r & s' & Hs).
        rewrite Hs. by apply Hsave.
      * rewrite idle_save_eq by done.
        unfold previous_output in Hidle. rewrite Hout in Hidle. apply Hidle; auto.
    + rewrite no_click_eq by done. apply Hidle; auto.
  - destruct (not_started _ _ Hstart) as [Htok|(Htok & -> & msg & Hfail)].
    + rewrite script_no_credential by done. apply Hstop; cbn; auto; done.
    + rewrite (script_pipeline_fails _ _ _ _ msg) by done. apply Hstop; cbn; auto; done.
Qed.

Lemma save_file_effects w content filename s r s' :
  save_file w content filename s = (Ret r, s') ->
  session_state s' = session_state s /\
  pipeline_cached s' = pipeline_cached s /\
  page s' = page s /\
  filter is_inference (trace s') = filter is_inference (trace s) /\
  filter is_construction (trace s') = filter is_construction (trace s) /\
  (forall p,
     (forall home, Path_home w = Returns home -> p <> download_path home filename) ->
     disk s' !! p = disk s !! p).
Proof.
  rewrite save_file_eq. destruct s as [ss c d pg t].
  destruct (Path_home w) as [home|]; [|by intros [= <- <-]].
  cbv zeta. destruct (open_w w _); [destruct (write w _ _)|];
    intros [= <- <-]; cbn [with_disk with_trace session_state pipeline_cached page trace disk];
    rewrite ?filter_app, ?app_nil_r; repeat split; try done;
    intros p Hp; rewrite ?lookup_insert_ne; try done; by apply not_eq_sym, Hp.
Qed.

Lemma starts_cached w cached : starts w cached = true -> starts w true = true.
Proof.
  unfold starts. intros [-> _]%andb_true_iff. reflexivity.
Qed.

Lemma constructions_cache_miss w cached :
  filter is_construction (cache_miss w cached) = cache_miss w cached.
Proof. by destruct cached. Qed.

Lemma inference_cache_miss w cached :
  filter is_inference (cache_miss w cached) = [].
Proof. by destruct cached. Qed.

Lemma file_access_cache_miss w cached :
  filter is_file_access (cache_miss w cached) = [].
Proof. by destruct cached. Qed.

Lemma request_is_inference ui text : is_inference (request ui text) = true.
Proof. unfold request. by destruct (task_choice ui). Qed.

Lemma request_is_no_construction ui text : is_construction (request ui text) = false.
Proof. unfold request. by destruct (task_choice ui). Qed.

Lemma request_is_no_file_access ui text : is_file_access (request ui text) = false.
Proof. unfold request. by destruct (task_choice ui). Qed.

(** ** Start-up (lines 105-127) *)

(** X1: a session that already holds values keeps them through the
    initialisation loop; the loop only gives [""] to those of the three keys
    that are missing, touches no other key, and never raises. *)
Theorem init_session_keeps_values s :
  exists s',
    init_session s = (Ret tt, s') /\
    (forall k v, session_state s !! k = Some v -> session_state s' !! k = Some v) /\
    (forall k, k ∈ session_keys -> session_state s !! k = None ->
               session_state s' !! k = Some "") /\
    (forall k, k ∉ session_keys -> session_state s' !! k = session_state s !! k) /\
    disk s' = disk s /\ page s' = page s /\ trace s' = trace s.
Proof.
  rewrite init_session_eq. eexists; split; [reflexivity|].
  destruct s as [ss c d p t]. cbn [with_session session_state disk page trace].
  unfold defaults, session_keys.
  repeat split.
  - intros k v Hk. rewrite !lookup_set_default.
    repeat case_decide; subst; unfold field; rewrite ?lookup_set_default;
      repeat case_decide; try done; unfold field; rewrite ?lookup_set_default;
      repeat case_decide; try done; by rewrite Hk.
  - intros k Hin Hk. rewrite !lookup_set_default.
    repeat (apply elem_of_cons in Hin as [->|Hin]); [| | |by apply elem_of_nil in Hin];
      repeat case_decide; try done; unfold field; rewrite ?lookup_set_default;
      repeat case_decide; try done; unfold field; rewrite ?lookup_set_default;
      repeat case_decide; try done; by rewrite Hk.
  - intros k Hk. rewrite !lookup_set_default.
    repeat case_decide; subst; try done; exfalso; apply Hk;
      repeat (first [by left | right]).
Qed.

(** X2: when the credential is there, the pipeline is not cached and its
    constructor raises, the script shows "Failed to initialize pipeline"
    with the message and stops: no handler runs, nothing is cached (the next
    execution tries again), and the disk is left alone. *)
Theorem pipeline_failure_halts w ui s msg :
  truthy_env (HF_TOKEN w) = true ->
  pipeline_cached s = false ->
  SummarizationPipeline w (token w) = Throws msg ->
  app w ui s =
  (Raise StopException,
   {| session_state := defaults (session_state s);
      pipeline_cached := false;
      disk := disk s;
      page := [st_markdown CUSTOM_CSS;
               st_error ("Failed to initialize pipeline: " +:+ msg)];
      trace := [new_SummarizationPipeline (token w)] |}).
Proof.
  intros Htok Hc Hfail. unfold app. rewrite Hc.
  by apply script_pipeline_fails.
Qed.

Lemma pipeline_failure_halts_witness :
  app broken_pipeline_world (click (Some Run) Summarization (Some "text")) first_visit =
  (Raise StopException,
   {| session_state := defaults ∅;
      pipeline_cached := false;
      disk := ∅;
      page := [st_markdown CUSTOM_CSS;
               st_error "Failed to initialize pipeline: 401 Unauthorized"];
      trace := [new_SummarizationPipeline "hf_demo"] |}).
Proof.
  apply (pipeline_failure_halts broken_pipeline_world
           (click (Some Run) Summarization (Some "text")) first_visit
           "401 Unauthorized"); reflexivity.
Defined.

(** X3: an execution ends in one of three ways and never with an uncaught
    exception: it stops when the script cannot start, asks for a rerun when
    Clear was clicked, and runs to the footer otherwise. *)
Theorem execution_outcome w ui s :
  fst (app w ui s) =
  if starts w (pipeline_cached s)
  then if clear_btn ui then Raise RerunException else Ret tt
  else Raise StopException.
Proof.
  unfold app, clear_btn. apply script_cases.
  - intros -> s' Hs' _ _ _ _ _. done.
  - intros -> ->. done.
  - intros -> [->|[[-> _]|[-> _]]]; done.
  - intros -> -> _. done.
  - intros -> -> _ r s' _. done.
Qed.

(** X4: the pipeline is built once.  An execution that starts calls the
    constructor, with the token of the environment, exactly when the cache is
    empty, and leaves the cache filled; the execution after it calls no
    constructor, whatever the user does. *)
Theorem pipeline_built_once w ui ui' s :
  starts w (pipeline_cached s) = true ->
  constructions (snd (app w ui s)) =
    (if pipeline_cached s then [] else [new_SummarizationPipeline (token w)]) /\
  pipeline_cached (snd (app w ui s)) = true /\
  constructions (snd (app w ui' (snd (app w ui s)))) = [].
Proof.
  intros Hstart.
  assert (forall ui0 s0, starts w (pipeline_cached s0) = true ->
            constructions (snd (app w ui0 s0)) = cache_miss w (pipeline_cached s0) /\
            pipeline_cached (snd (app w ui0 s0)) = true) as Hone.
  { clear. intros ui s Hstart. unfold app, constructions. apply script_cases.
    - congruence.
    - intros _ _. cbn. by rewrite constructions_cache_miss.
    - intros _ _. cbn. by rewrite constructions_cache_miss.
    - intros _ _ _. cbn. rewrite filter_app, constructions_cache_miss.
      cbn. rewrite request_is_no_construction. by rewrite app_nil_r.
    - intros _ _ _ r s' Hs'.
      apply save_file_effects in Hs' as (_ & Hc & _ & _ & Ht & _).
      cbn. rewrite Ht, Hc. cbn. by rewrite constructions_cache_miss. }
  destruct (Hone ui s Hstart) as [H1 H2]. split; [exact H1|]. split; [exact H2|].
  destruct (Hone ui' (snd (app w ui s))) as [H3 _].
  - rewrite H2. by eapply starts_cached.
  - by rewrite H3, H2.
Qed.

Lemma pipeline_built_once_witness :
  constructions (snd (app demo_world (click (Some Run) Summarization (Some "text"))
                        first_visit)) =
    [new_SummarizationPipeline "hf_demo"] /\
  pipeline_cached (snd (app demo_world (click (Some Run) Summarization (Some "text"))
                          first_visit)) = true /\
  constructions
    (snd (app demo_world (click (Some Save) Summarization None)
            (snd (app demo_world (click (Some Run) Summarization (Some "text"))
                    first_visit)))) = [].
Proof.
  apply (pipeline_built_once demo_world (click (Some Run) Summarization (Some "text"))
           (click (Some Save) Summarization None) first_visit); reflexivity.
Defined.

(** ** [save_file] (lines 94-103) *)

(** X5: [save_file] touches one file at most, its target, the home
    directory joined with [Downloads] and the file name as [pathlib] joins
    them: every other path of the disk keeps its content (and the
    whole disk does when the home directory cannot be determined or the file
    cannot be opened), and the session and the page are not changed. *)
Theorem save_file_touches_only_target w content filename s :
  let s' := snd (save_file w content filename s) in
  session_state s' = session_state s /\
  page s' = page s /\
  (forall home p, Path_home w = Returns home -> p <> download_path home filename ->
                  disk s' !! p = disk s !! p) /\
  ((forall home, Path_home w <> Returns home) -> disk s' = disk s) /\
  (forall home msg, Path_home w = Returns home ->
                    open_w w (download_path home filename) = Throws msg ->
                    disk s' = disk s).
Proof.
  cbv zeta. rewrite save_file_eq. destruct s as [ss c d pg t].
  destruct (Path_home w) as [home|] eqn:Hhome.
  - cbv zeta. destruct (open_w w _) eqn:Hopen; [destruct (write w _ _)|];
      cbn [snd with_disk with_trace session_state page disk];
      (split; [done|]); (split; [done|]); (split; [|split]).
    all: try (intros h p [= <-] Hp; rewrite ?lookup_insert_ne; done).
    all: try (intros Hno; by destruct (Hno home)).
    all: try (intros h msg' [= <-] Hthrow; congruence).
  - cbn [snd]. repeat split; done.
Qed.

(** ** What an execution leaves alone *)

Lemma field_defaults k session : field k (defaults session) = field k session.
Proof. unfold defaults. by rewrite !field_set_default. Qed.

Lemma field_synced_text_input ui session :
  field "text_input" (synced ui session) = entered ui session.
Proof. unfold field. by rewrite synced_text_input. Qed.

(** X6: only a Save click reaches the file system: after any other
    execution, started or not, the disk is what it was and no file was opened
    or written. *)
Theorem disk_changes_only_on_save w ui s :
  clicked ui <> Some Save ->
  disk (snd (app w ui s)) = disk s /\ file_accesses (snd (app w ui s)) = [].
Proof.
  intros Hclick. unfold app, file_accesses. apply script_cases.
  - intros _ s' _ _ _ -> _ [->|[_ ->]]; done.
  - intros _ _. cbn. by rewrite file_access_cache_miss.
  - intros _ _. cbn. by rewrite file_access_cache_miss.
  - intros _ _ _. cbn. rewrite filter_app, file_access_cache_miss.
    cbn. by rewrite request_is_no_file_access.
  - intros _ Hsave. done.
Qed.

Lemma disk_changes_only_on_save_witness :
  disk (snd (app demo_world (click (Some Run) Summarization (Some "text")) after_summary)) =
    disk after_summary /\
  file_accesses
    (snd (app demo_world (click (Some Run) Summarization (Some "text")) after_summary)) = [].
Proof.
  apply (disk_changes_only_on_save demo_world
           (click (Some Run) Summarization (Some "text")) after_summary).
  discriminate.
Defined.

(** X7: the stored result survives everything but Run and Clear: after a
    Save click or an execution without a click, started or not, and whether
    or not the file could be written, [text_output] and [mode] hold what they
    held before. *)
Theorem stored_result_survives w ui s :
  clicked ui <> Some Run ->
  clicked ui <> Some Clear ->
  output_text (snd (app w ui s)) = output_text s /\
  mode (snd (app w ui s)) = mode s.
Proof.
  intros Hrun Hclear. unfold app, output_text, mode. apply script_cases.
  - intros _ s' _ -> _ _ _ _. by rewrite !field_defaults.
  - done.
  - intros _ _. cbn. by rewrite field_synced_text_output, field_synced_mode.
  - done.
  - intros _ _ _ r s' Hs'.
    apply save_file_effects in Hs' as (Hss & _).
    cbn. rewrite Hss. cbn. by rewrite field_synced_text_output, field_synced_mode.
Qed.

Lemma stored_result_survives_witness :
  output_text (snd (app no_home_world (click (Some Save) Paraphrasing (Some "other"))
                      after_summary)) = "a summary" /\
  mode (snd (app no_home_world (click (Some Save) Paraphrasing (Some "other"))
               after_summary)) = "summary".
Proof.
  apply (stored_result_survives no_home_world
           (click (Some Save) Paraphrasing (Some "other")) after_summary);
    discriminate.
Defined.

(** X8: an execution makes at most one inference call, and it makes none
    unless Run was clicked. *)
Theorem at_most_one_inference_call w ui s :
  length (inference_calls (snd (app w ui s))) <= 1 /\
  (clicked ui <> Some Run -> inference_calls (snd (app w ui s)) = []).
Proof.
  unfold app, inference_calls. apply script_cases.
  - intros _ s' _ _ _ _ _ [->|[_ ->]]; vm_compute; auto.
  - intros _ _. cbn. rewrite inference_cache_miss. cbn. auto with lia.
  - intros _ _. cbn. rewrite inference_cache_miss. cbn. auto with lia.
  - intros _ Hclick _. cbn.
    rewrite !filter_app, inference_cache_miss.
    rewrite !filter_cons, !filter_nil, request_is_inference.
    repeat case_decide; done.
  - intros _ _ _ r s' Hs'.
    apply save_file_effects in Hs' as (_ & _ & _ & Ht & _).
    cbn. rewrite Ht. cbn. rewrite inference_cache_miss. cbn.
    repeat split; try done; lia.
Qed.

(** X9: in an execution that starts and is no Clear click, the text of the
    text area is what the session holds as [text_input] afterwards, whether
    the inference or the save succeeded or not. *)
Theorem typed_text_is_kept w ui s :
  starts w (pipeline_cached s) = true ->
  clicked ui <> Some Clear ->
  input_text (snd (app w ui s)) = entered ui (session_state s).
Proof.
  intros Hstart Hclear. unfold app, input_text. apply script_cases.
  - congruence.
  - done.
  - intros _ _. cbn. apply field_synced_text_input.
  - intros _ _ _. cbn. unfold field.
    destruct (response w ui _); rewrite ?lookup_insert_ne by done;
      by rewrite synced_text_input.
  - intros _ _ _ r s' Hs'.
    apply save_file_effects in Hs' as (Hss & _).
    cbn. rewrite Hss. cbn. apply field_synced_text_input.
Qed.

Lemma typed_text_is_kept_witness :
  input_text (snd (app demo_world (click (Some Run) Paraphrasing (Some "new text"))
                     after_summary)) = "new text".
Proof.
  apply (typed_text_is_kept demo_world (click (Some Run) Paraphrasing (Some "new text"))
           after_summary); [reflexivity|discriminate].
Defined.

(** ** Executions without a click (lines 183, 219-222) *)

Lemma defaults_id (session : gmap string string) :
  (forall k, k ∈ session_keys -> is_Some (session !! k)) ->
  defaults session = session.
Proof.
  intros Hkeys. unfold defaults, set_default.
  assert (is_Some (session !! "text_input")) as H1
    by (apply Hkeys; repeat (first [by left | right])).
  assert (is_Some (session !! "text_output")) as H2
    by (apply Hkeys; repeat (first [by left | right])).
  assert (is_Some (session !! "mode")) as H3
    by (apply Hkeys; repeat (first [by left | right])).
  rewrite (bool_decide_eq_true_2 _ H1), (bool_decide_eq_true_2 _ H2).
  by rewrite (bool_decide_eq_true_2 _ H3).
Qed.

Lemma synced_keys ui session k :
  k ∈ session_keys -> is_Some (synced ui session !! k).
Proof.
  intros Hin. unfold session_keys in Hin.
  repeat (apply elem_of_cons in Hin as [->|Hin]); [| | |by apply elem_of_nil in Hin].
  - rewrite synced_text_input. eauto.
  - rewrite synced_text_output. eauto.
  - rewrite synced_mode. eauto.
Qed.

Lemma synced_idempotent ui session :
  synced ui (synced ui session) = synced ui session.
Proof.
  unfold synced at 1. rewrite defaults_id by apply synced_keys.
  unfold entered at 1. rewrite field_synced_text_input.
  unfold synced, entered.
  destruct (typed ui) as [text|]; simpl; by rewrite insert_insert_eq.
Qed.

(** X10: an execution without a click (the user edited the text or moved a
    sidebar control) stores the text area's value, makes no call, touches no
    file and shows the previous output, or the placeholder when there is
    none. *)
Theorem rerun_without_click w ui s :
  starts w (pipeline_cached s) = true ->
  clicked ui = None ->
  exists s',
    app w ui s = (Ret tt, s') /\
    session_state s' = synced ui (session_state s) /\
    disk s' = disk s /\
    inference_calls s' = [] /\
    file_accesses s' = [] /\
    page s' =
      page_above_output ++
      [st_subheader "📄 Output";
       if truthy (output_text s)
       then st_text_area "Previous Output" (output_text s)
       else placeholder;
       st_markdown FOOTER].
Proof.
  open_state s. intros Hstart Hclick.
  rewrite no_click_eq by done.
  eexists; split; [reflexivity|]. cbn.
  by rewrite inference_cache_miss, file_access_cache_miss.
Qed.

Lemma rerun_without_click_witness :
  exists s',
    app demo_world (click None Paraphrasing (Some "edited")) after_summary = (Ret tt, s') /\
    session_state s' =
      synced (click None Paraphrasing (Some "edited")) (session_state after_summary) /\
    disk s' = ∅ /\
    inference_calls s' = [] /\
    file_accesses s' = [] /\
    page s' =
      page_above_output ++
      [st_subheader "📄 Output"; st_text_area "Previous Output" "a summary";
       st_markdown FOOTER].
Proof.
  apply (rerun_without_click demo_world (click None Paraphrasing (Some "edited"))
           after_summary); reflexivity.
Defined.

(** X11: executing the script again with the same widget values and no
    click changes nothing: the session after the second execution is the
    session after the first. *)
Theorem rerun_is_idempotent w ui s :
  starts w (pipeline_cached s) = true ->
  clicked ui = None ->
  session_state (snd (app w ui (snd (app w ui s)))) =
  session_state (snd (app w ui s)).
Proof.
  open_state s. intros Hstart Hclick.
  rewrite (no_click_eq w ui ss c d) by done.
  cbn [snd with_page at_handlers session_state pipeline_cached disk].
  rewrite no_click_eq by (by eauto using starts_cached).
  cbn [snd with_page at_handlers session_state pipeline_cached disk].
  apply synced_idempotent.
Qed.

Lemma rerun_is_idempotent_witness :
  session_state
    (snd (app demo_world (click None Summarization (Some "edited"))
            (snd (app demo_world (click None Summarization (Some "edited")) first_visit)))) =
  session_state (snd (app demo_world (click None Summarization (Some "edited")) first_visit)).
Proof.
  apply (rerun_is_idempotent demo_world (click None Summarization (Some "edited"))
           first_visit); reflexivity.
Defined.

(** ** Sequences of executions *)

Lemma field_after_run_success w ui session result :
  response w ui (entered ui session) = Returns result ->
  forall cached files,
    field "text_output" (session_state (after_run w ui session cached files)) = result /\
    field "mode" (session_state (after_run w ui session cached files)) = mode_tag ui.
Proof.
  intros Hresp cached files. cbn [after_run session_state]. rewrite Hresp.
  unfold field. rewrite lookup_insert_eq, lookup_insert_ne, lookup_insert_eq by done.
  done.
Qed.

Lemma download_name_mode_tag ui :
  download_name (mode_tag ui) =
  match task_choice ui with
  | Summarization => "AI_output.txt"
  | Paraphrasing => "AI_paraphrase.txt"
  end.
Proof. unfold mode_tag. by destruct (task_choice ui). Qed.

(** What a Save click does when the file can be written. *)
Lemma save_click_written w ui session cached files home :
  starts w cached = true ->
  clicked ui = Some Save ->
  truthy (field "text_output" session) = true ->
  Path_home w = Returns home ->
  writable w (download_path home (download_name (field "mode" session)))
    (field "text_output" session) = true ->
  exists s',
    script w ui (execution session cached files) = (Ret tt, s') /\
    disk s' =
      <[download_path home (download_name (field "mode" session)) :=
          field "text_output" session]> files /\
    st_success ("💾 File saved to: " +:+
                download_path home (download_name (field "mode" session))) ∈ page s'.
Proof.
  intros Hstart Hclick Hout Hhome Hw.
  rewrite save_click_eq by done. rewrite save_file_eq, Hhome. cbv zeta.
  unfold writable in Hw.
  destruct (open_w w _); [|discriminate Hw].
  destruct (write w _ _); [|discriminate Hw].
  eexists; split; [reflexivity|].
  cbn [with_page with_disk with_trace disk page].
  rewrite insert_insert_eq. split; [done|].
  rewrite !elem_of_app, !list_elem_of_singleton. auto.
Qed.

(** X12: Run, then Save: when the call of a Run click returns a non-empty
    result and the file can be written, the Save click that follows leaves
    exactly that result on disk, in [AI_output.txt] after a summarization and
    in [AI_paraphrase.txt] after a paraphrase, and reports the path. *)
Theorem run_then_save_round_trip w ui ui' s result home :
  starts w (pipeline_cached s) = true ->
  clicked ui = Some Run ->
  truthy (entered ui (session_state s)) = true ->
  response w ui (entered ui (session_state s)) = Returns result ->
  truthy result = true ->
  clicked ui' = Some Save ->
  Path_home w = Returns home ->
  let target :=
    download_path home
      match task_choice ui with
      | Summarization => "AI_output.txt"
      | Paraphrasing => "AI_paraphrase.txt"
      end in
  writable w target result = true ->
  exists s1 s2,
    app w ui s = (Ret tt, s1) /\
    app w ui' s1 = (Ret tt, s2) /\
    disk s2 = <[target := result]> (disk s) /\
    disk s2 !! target = Some result /\
    st_success ("💾 File saved to: " +:+ target) ∈ page s2.
Proof.
  destruct s as [ss c d p t]. unfold app.
  cbn [session_state pipeline_cached disk].
  intros Hstart Hrun Htext Hresp Hres Hsave Hhome Hw.
  rewrite <- download_name_mode_tag in *.
  rewrite run_click_after_run by done.
  destruct (field_after_run_success w ui ss result Hresp c d) as [Hout Hmode].
  destruct (save_click_written w ui'
              (session_state (after_run w ui ss c d)) true d home)
    as (s2 & Hs2 & Hdisk & Hpage).
  { by eapply starts_cached. }
  { done. }
  { by rewrite Hout. }
  { done. }
  { by rewrite Hout, Hmode. }
  rewrite Hout, Hmode in Hdisk. rewrite Hmode in Hpage.
  exists (after_run w ui ss c d), s2. split; [done|].
  split; [exact Hs2|]. split; [exact Hdisk|]. split; [|exact Hpage].
  rewrite Hdisk. apply lookup_insert_eq.
Qed.

Lemma run_then_save_round_trip_witness :
  exists s1 s2,
    app demo_world (click (Some Run) Summarization (Some "text")) first_visit =
      (Ret tt, s1) /\
    app demo_world (click (Some Save) Summarization (Some "text")) s1 = (Ret tt, s2) /\
    disk s2 =
      <["/home/user/Downloads/AI_output.txt" := "abstractive/medium: text"]> ∅ /\
    disk s2 !! "/home/user/Downloads/AI_output.txt" = Some "abstractive/medium: text" /\
    st_success "💾 File saved to: /home/user/Downloads/AI_output.txt" ∈ page s2.
Proof.
  apply (run_then_save_round_trip demo_world
           (click (Some Run) Summarization (Some "text"))
           (click (Some Save) Summarization (Some "text"))
           first_visit "abstractive/medium: text" "/home/user"); reflexivity.
Defined.

(** X13: a call that returns the empty string counts as a success (the
    success box is shown and [mode] is set), but it leaves nothing to save:
    the Save click that follows opens no file and shows the placeholder. *)
Theorem empty_result_leaves_nothing_to_save w ui ui' s :
  starts w (pipeline_cached s) = true ->
  clicked ui = Some Run ->
  truthy (entered ui (session_state s)) = true ->
  response w ui (entered ui (session_state s)) = Returns "" ->
  clicked ui' = Some Save ->
  exists s1 s2,
    app w ui s = (Ret tt, s1) /\
    st_success "✅ Completed successfully." ∈ page s1 /\
    mode s1 = mode_tag ui /\
    output_text s1 = "" /\
    app w ui' s1 = (Ret tt, s2) /\
    file_accesses s2 = [] /\
    disk s2 = disk s /\
    page s2 =
      page_above_output ++ [st_subheader "📄 Output"; placeholder; st_markdown FOOTER].
Proof.
  destruct s as [ss c d p t]. unfold app, mode, output_text, file_accesses.
  cbn [session_state pipeline_cached disk].
  intros Hstart Hrun Htext Hresp Hsave.
  rewrite run_click_after_run by done.
  destruct (field_after_run_success w ui ss "" Hresp c d) as [Hout Hmode].
  exists (after_run w ui ss c d). eexists.
  split; [reflexivity|]. split.
  { cbn [after_run page]. rewrite Hresp.
    rewrite !elem_of_app, !elem_of_cons. auto 10. }
  split; [exact Hmode|]. split; [exact Hout|].
  rewrite idle_save_eq; [|by eapply starts_cached|done|by rewrite Hout].
  split; [reflexivity|]. done.
Qed.

Lemma empty_result_leaves_nothing_to_save_witness :
  exists s1 s2,
    app silent_world (click (Some Run) Paraphrasing (Some "text")) first_visit =
      (Ret tt, s1) /\
    st_success "✅ Completed successfully." ∈ page s1 /\
    mode s1 = "paraphrase" /\
    output_text s1 = "" /\
    app silent_world (click (Some Save) Paraphrasing (Some "text")) s1 = (Ret tt, s2) /\
    file_accesses s2 = [] /\
    disk s2 = ∅ /\
    page s2 =
      page_above_output ++ [st_subheader "📄 Output"; placeholder; st_markdown FOOTER].
Proof.
  apply (empty_result_leaves_nothing_to_save silent_world
           (click (Some Run) Paraphrasing (Some "text"))
           (click (Some Save) Paraphrasing (Some "text")) first_visit); reflexivity.
Defined.

(** X14: Clear, then Save: after a Clear click there is nothing left to
    save; the Save click that follows opens no file, leaves the disk alone
    and shows the placeholder. *)
Theorem clear_then_save_writes_nothing w ui ui' s :
  starts w (pipeline_cached s) = true ->
  clicked ui = Some Clear ->
  clicked ui' = Some Save ->
  exists s2,
    app w ui' (snd (app w ui s)) = (Ret tt, s2) /\
    file_accesses s2 = [] /\
    disk s2 = disk s /\
    output_text s2 = "" /\
    page s2 =
      page_above_output ++ [st_subheader "📄 Output"; placeholder; st_markdown FOOTER].
Proof.
  destruct s as [ss c d p t]. unfold app, output_text, file_accesses.
  cbn [session_state pipeline_cached disk].
  intros Hstart Hclear Hsave.
  rewrite (clear_click_eq w ui ss c d) by done.
  cbn [snd with_session at_handlers session_state pipeline_cached disk].
  assert (field "text_output" (blank (synced ui ss)) = "") as Hout.
  { unfold field. by rewrite lookup_blank, synced_text_output. }
  rewrite idle_save_eq; [|by eapply starts_cached|done|by rewrite Hout].
  eexists; split; [reflexivity|]. cbn [trace disk session_state page].
  rewrite field_synced_text_output, Hout. done.
Qed.

Lemma clear_then_save_writes_nothing_witness :
  exists s2,
    app demo_world (click (Some Save) Summarization None)
      (snd (app demo_world (click (Some Clear) Summarization None) after_summary)) =
      (Ret tt, s2) /\
    file_accesses s2 = [] /\
    disk s2 = ∅ /\
    output_text s2 = "" /\
    page s2 =
      page_above_output ++ [st_subheader "📄 Output"; placeholder; st_markdown FOOTER].
Proof.
  apply (clear_then_save_writes_nothing demo_world
           (click (Some Clear) Summarization None)
           (click (Some Save) Summarization None) after_summary); reflexivity.
Defined.

(** X15: a failed Run loses nothing that could be saved: the Save click
    that follows writes the output of before the failed Run, under the file
    name of the mode of before. *)
Theorem failed_run_then_save_keeps_previous w ui ui' s msg home :
  starts w (pipeline_cached s) = true ->
  clicked ui = Some Run ->
  truthy (entered ui (session_state s)) = true ->
  response w ui (entered ui (session_state s)) = Throws msg ->
  clicked ui' = Some Save ->
  truthy (output_text s) = true ->
  Path_home w = Returns home ->
  writable w (download_path home (download_name (mode s))) (output_text s) = true ->
  exists s1 s2,
    app w ui s = (Ret tt, s1) /\
    app w ui' s1 = (Ret tt, s2) /\
    disk s2 = <[download_path home (download_name (mode s)) := output_text s]> (disk s).
Proof.
  destruct s as [ss c d p t]. unfold app, mode, output_text.
  cbn [session_state pipeline_cached disk].
  intros Hstart Hrun Htext Hresp Hsave Hout Hhome Hw.
  rewrite run_click_after_run by done.
  assert (session_state (after_run w ui ss c d) = synced ui ss) as Hss.
  { cbn [after_run session_state]. by rewrite Hresp. }
  destruct (save_click_written w ui'
              (session_state (after_run w ui ss c d)) true d home)
    as (s2 & Hs2 & Hdisk & _).
  { by eapply starts_cached. }
  { done. }
  { by rewrite Hss, field_synced_text_output. }
  { done. }
  { by rewrite Hss, field_synced_text_output, field_synced_mode. }
  rewrite Hss, field_synced_text_output, field_synced_mode in Hdisk.
  exists (after_run w ui ss c d), s2. done.
Qed.

Lemma failed_run_then_save_keeps_previous_witness :
  exists s1 s2,
    app demo_world (click (Some Run) Paraphrasing (Some "new text")) after_summary =
      (Ret tt, s1) /\
    app demo_world (click (Some Save) Paraphrasing (Some "new text")) s1 = (Ret tt, s2) /\
    disk s2 = <["/home/user/Downloads/AI_output.txt" := "a summary"]> ∅.
Proof.
  apply (failed_run_then_save_keeps_previous demo_world
           (click (Some Run) Paraphrasing (Some "new text"))
           (click (Some Save) Paraphrasing (Some "new text"))
           after_summary "503 Service Unavailable" "/home/user"); reflexivity.
Defined.

(** X16: when the home directory cannot be determined, a Save click with an
    output in the session shows "Could not save file" after the previous
    output, opens no file and leaves the disk and the stored output alone. *)
Theorem save_without_home_reports_failure w ui s msg :
  starts w (pipeline_cached s) = true ->
  clicked ui = Some Save ->
  truthy (output_text s) = true ->
  Path_home w = Throws msg ->
  exists s',
    app w ui s = (Ret tt, s') /\
    page s' =
      page_above_output ++
      [st_subheader "📄 Output"; st_text_area "Previous Output" (output_text s);
       st_error "⚠️ Could not save file"; st_markdown FOOTER] /\
    file_accesses s' = [] /\
    disk s' = disk s /\
    output_text s' = output_text s.
Proof.
  open_state s. intros Hstart Hclick Hout Hhome.
  rewrite save_click_eq by done. rewrite save_file_eq, Hhome.
  eexists; split; [reflexivity|]. cbn [with_page page trace disk session_state].
  rewrite field_synced_text_output. destruct c; done.
Qed.

Lemma save_without_home_reports_failure_witness :
  exists s',
    app no_home_world (click (Some Save) Summarization None) after_summary = (Ret tt, s') /\
    page s' =
      page_above_output ++
      [st_subheader "📄 Output"; st_text_area "Previous Output" "a summary";
       st_error "⚠️ Could not save file"; st_markdown FOOTER] /\
    file_accesses s' = [] /\
    disk s' = ∅ /\
    output_text s' = "a summary".
Proof.
  apply (save_without_home_reports_failure no_home_world
           (click (Some Save) Summarization None) after_summary
           "Could not determine home directory."); reflexivity.
Defined.

(** ** Clear and the rerun it asks for (lines 183, 190-193) *)

(** X18: in the execution that follows a Clear click, [text_output] and
    [mode] stay empty and the placeholder is shown, but line 183 stores
    whatever the text area returns in [text_input] again: it is empty only
    when the text area returns the empty text. *)
Theorem clear_then_rerun w ui ui' s :
  starts w (pipeline_cached s) = true ->
  clicked ui = Some Clear ->
  clicked ui' = None ->
  exists s2,
    app w ui' (snd (app w ui s)) = (Ret tt, s2) /\
    output_text s2 = "" /\
    mode s2 = "" /\
    input_text s2 = default "" (typed ui') /\
    page s2 =
      page_above_output ++ [st_subheader "📄 Output"; placeholder; st_markdown FOOTER].
Proof.
  destruct s as [ss c d p t]. unfold app, input_text, output_text, mode.
  cbn [session_state pipeline_cached disk].
  intros Hstart Hclear Hnone.
  rewrite (clear_click_eq w ui ss c d) by done.
  cbn [snd with_session at_handlers session_state pipeline_cached disk].
  assert (field "text_output" (blank (synced ui ss)) = "") as Hout.
  { unfold field. by rewrite lookup_blank, synced_text_output. }
  assert (field "mode" (blank (synced ui ss)) = "") as Hmode.
  { unfold field. by rewrite lookup_blank, synced_mode. }
  assert (field "text_input" (blank (synced ui ss)) = "") as Hin.
  { unfold field. by rewrite lookup_blank, synced_text_input. }
  rewrite no_click_eq; [|by eapply starts_cached|done].
  eexists; split; [reflexivity|].
  cbn [with_page at_handlers session_state page].
  rewrite field_synced_text_output, field_synced_mode, field_synced_text_input.
  unfold entered, previous_output. rewrite Hout, Hmode, Hin. done.
Qed.

Lemma clear_then_rerun_witness :
  exists s2,
    app demo_world (click None Summarization (Some "abc"))
      (snd (app demo_world (click (Some Clear) Summarization (Some "abc"))
              after_summary)) =
      (Ret tt, s2) /\
    output_text s2 = "" /\
    mode s2 = "" /\
    input_text s2 = "abc" /\
    page s2 =
      page_above_output ++ [st_subheader "📄 Output"; placeholder; st_markdown FOOTER].
Proof.
  apply (clear_then_rerun demo_world (click (Some Clear) Summarization (Some "abc"))
           (click None Summarization (Some "abc")) after_summary); reflexivity.
Defined.

